(** * golang-socketio, package [protocol]: the text codec [Encode] / [Decode]

    A shallow embedding of [protocol/socketio.go] and of the parts of the Go
    standard library it calls ([strconv.Atoi], [strconv.Itoa],
    [strings.IndexByte], [json.Marshal] on a string, the [range] loop over a
    string), followed by the properties of the codec.

    Conventions.
    - A Go [string] is a sequence of bytes: [gostring := list ascii].
    - A Go [int] is a [Z]; [strconv.IntSize] is 64.
    - A Go [error] value is an [option error], [None] being [nil].
    - Functions with several results return tuples, in the order of the
      source.  A run-time panic (a slice expression out of range) is the
      [Panic] outcome of the [exec] monad. *)

From Stdlib Require Import ZArith List Bool Ascii String Lia.
Import ListNotations.

Local Open Scope Z_scope.
Local Open Scope list_scope.

(* ================================================================= *)
(** ** Go strings *)

Definition gostring : Type := list ascii.

(** A literal: [str "42"] is the Go string ["42"]. *)
Definition str (s : string) : gostring := list_ascii_of_string s.

Definition len (s : gostring) : Z := Z.of_nat (List.length s).

(** The numeric value of a byte. *)
Definition byteval (c : ascii) : Z := Z.of_N (N_of_ascii c).

Definition byte_of (z : Z) : ascii := ascii_of_N (Z.to_N z).

(** Go's [==] on strings. *)
Fixpoint streq (a b : gostring) : bool :=
  match a, b with
  | [], [] => true
  | x :: a', y :: b' => Ascii.eqb x y && streq a' b'
  | _, _ => false
  end.

(** The characters the codec looks for. *)
Definition quote : ascii := "034"%char.
Definition comma_c : ascii := ","%char.
Definition slash : ascii := "/"%char.
Definition lbracket : ascii := "["%char.
Definition rbracket : ascii := "]"%char.
Definition backslash : ascii := "\"%char.

(* ================================================================= *)
(** ** Errors *)

Inductive numErr : Type := ErrSyntax | ErrRange.

(** The two error values of the package, and [*strconv.NumError], which
    [getAck] passes on unchanged. *)
Inductive error : Type :=
| ErrorWrongMessageType
| ErrorWrongPacket
| NumError (Func Num : gostring) (Err : numErr).

(* ================================================================= *)
(** ** Outcomes of a call: a value, or a run-time panic *)

(** A panic is raised by the run time for a slice expression out of range,
    or by the program with an error as its value. *)
Inductive panic : Type :=
| SliceBoundsOutOfRange (lo hi length : Z)
| PanicError (e : error).

Inductive exec (A : Type) : Type :=
| Return (a : A)
| Panic (p : panic).

Arguments Return {A} a.
Arguments Panic {A} p.

Definition bind {A B : Type} (m : exec A) (k : A -> exec B) : exec B :=
  match m with
  | Return a => k a
  | Panic p => Panic p
  end.

Notation "x <- m ;; k" := (bind m (fun x => k))
  (at level 61, m at next level, right associativity).
Notation "' pat <- m ;; k" := (bind m (fun x => match x with pat => k end))
  (at level 61, pat pattern, m at next level, right associativity).

(** The slice expression [s[lo:hi]]: Go panics unless
    [0 <= lo <= hi <= len(s)]. *)
Definition slice (s : gostring) (lo hi : Z) : exec gostring :=
  if (0 <=? lo) && (lo <=? hi) && (hi <=? len s)
  then Return (firstn (Z.to_nat (hi - lo)) (skipn (Z.to_nat lo) s))
  else Panic (SliceBoundsOutOfRange lo hi (len s)).

(** [s[lo:]] and [s[:hi]]. *)
Definition slice_from (s : gostring) (lo : Z) : exec gostring := slice s lo (len s).
Definition slice_to (s : gostring) (hi : Z) : exec gostring := slice s 0 hi.

(* ================================================================= *)
(** ** Package [unicode/utf8]: decoding one rune *)

Module utf8.

Definition RuneError : Z := 65533.
Definition RuneSelf : Z := 128.

(** For a leading byte: the length of the sequence and the range accepted
    for the second byte ([first] and [acceptRanges] of the package);
    [None] for a byte that cannot start a sequence. *)
Definition first (s0 : Z) : option (nat * Z * Z) :=
  if s0 <? 194 then None                      (* 0x80..0xC1 *)
  else if s0 <? 224 then Some (2%nat, 128, 191)   (* 0xC2..0xDF *)
  else if s0 =? 224 then Some (3%nat, 160, 191)   (* 0xE0 *)
  else if s0 =? 237 then Some (3%nat, 128, 159)   (* 0xED *)
  else if s0 <? 240 then Some (3%nat, 128, 191)   (* 0xE1..0xEF *)
  else if s0 =? 240 then Some (4%nat, 144, 191)   (* 0xF0 *)
  else if s0 <? 244 then Some (4%nat, 128, 191)   (* 0xF1..0xF3 *)
  else if s0 =? 244 then Some (4%nat, 128, 143)   (* 0xF4 *)
  else None.                                   (* 0xF5..0xFF *)

Definition locb : Z := 128.
Definition hicb : Z := 191.

Definition in_range (lo hi b : Z) : bool := (lo <=? b) && (b <=? hi).

(** [DecodeRuneInString]: the rune at the start of [s] and its width in
    bytes; [(RuneError, 1)] for an invalid or truncated sequence and
    [(RuneError, 0)] for the empty string. *)
Definition DecodeRuneInString (s : gostring) : Z * nat :=
  match s with
  | [] => (RuneError, 0%nat)
  | c0 :: t =>
    let s0 := byteval c0 in
    if s0 <? RuneSelf then (s0, 1%nat)
    else
      match first s0 with
      | None => (RuneError, 1%nat)
      | Some (sz, lo, hi) =>
        if (List.length s <? sz)%nat then (RuneError, 1%nat)
        else
          match t with
          | [] => (RuneError, 1%nat)
          | c1 :: t1 =>
            let s1 := byteval c1 in
            if negb (in_range lo hi s1) then (RuneError, 1%nat)
            else if (sz <=? 2)%nat
            then (Z.lor (Z.shiftl (Z.land s0 31) 6) (Z.land s1 63), 2%nat)
            else
              match t1 with
              | [] => (RuneError, 1%nat)
              | c2 :: t2 =>
                let s2 := byteval c2 in
                if negb (in_range locb hicb s2) then (RuneError, 1%nat)
                else if (sz <=? 3)%nat
                then (Z.lor (Z.lor (Z.shiftl (Z.land s0 15) 12)
                                   (Z.shiftl (Z.land s1 63) 6))
                            (Z.land s2 63), 3%nat)
                else
                  match t2 with
                  | [] => (RuneError, 1%nat)
                  | c3 :: _ =>
                    let s3 := byteval c3 in
                    if negb (in_range locb hicb s3) then (RuneError, 1%nat)
                    else (Z.lor (Z.lor (Z.lor (Z.shiftl (Z.land s0 7) 18)
                                              (Z.shiftl (Z.land s1 63) 12))
                                       (Z.shiftl (Z.land s2 63) 6))
                                (Z.land s3 63), 4%nat)
                  end
              end
          end
      end
  end.

End utf8.

(* ================================================================= *)
(** ** Package [strings] *)

Module strings.

(** [IndexByte(s, c)]: the index of the first [c] in [s], or [-1]. *)
Fixpoint IndexByte (s : gostring) (c : ascii) : Z :=
  match s with
  | [] => -1
  | x :: s' =>
    if Ascii.eqb x c then 0
    else let r := IndexByte s' c in if r <? 0 then -1 else r + 1
  end.

End strings.

(* ================================================================= *)
(** ** Package [strconv]: [Itoa] and [Atoi] *)

Module strconv.

Definition IntSize : Z := 64.
Definition maxUint64 : Z := 2 ^ 64 - 1.

Definition digit (d : Z) : ascii := byte_of (48 + d).

(** [formatBits] in base 10: the digits of [u], most significant first,
    written in front of [acc].  [fuel] bounds the number of digits. *)
Fixpoint formatBits (fuel : nat) (u : Z) (acc : gostring) : gostring :=
  match fuel with
  | O => acc
  | S fuel' =>
    if u <? 10 then digit u :: acc
    else formatBits fuel' (u / 10) (digit (u mod 10) :: acc)
  end.

(** A number has no more decimal digits than binary ones. *)
Definition digits_fuel (u : Z) : nat := S (Z.to_nat (Z.log2 u)).

(** [Itoa(i)] is [FormatInt(int64(i), 10)]: a minus sign for a negative
    number, then the decimal digits of its magnitude. *)
Definition Itoa (i : Z) : gostring :=
  if i <? 0 then "-"%char :: formatBits (digits_fuel (- i)) (- i) []
  else formatBits (digits_fuel i) i [].

(** The digit loop of [ParseUint] in base 10 with 64 bits: stops with a
    syntax error at the first byte that is no digit and with a range error
    as soon as the value leaves [uint64]. *)
Fixpoint parseDigits (s : gostring) (n : Z) : Z + numErr :=
  match s with
  | [] => inl n
  | c :: s' =>
    let b := byteval c in
    if (48 <=? b) && (b <=? 57) then
      let d := b - 48 in
      let cutoff := maxUint64 / 10 + 1 in
      if cutoff <=? n then inr ErrRange
      else
        let n1 := n * 10 + d in
        if maxUint64 <? n1 then inr ErrRange else parseDigits s' n1
    else inr ErrSyntax
  end.

Definition fnAtoi : gostring := str "Atoi".

(** [Atoi(s)] is [ParseInt(s, 10, 0)] with the function name of the error
    set to ["Atoi"]: an optional sign, at least one digit, nothing else,
    and a value that fits an [int].  (The fast path of [Atoi] for short
    strings computes the same results.) *)
Definition Atoi (s : gostring) : Z * option error :=
  let s0 := s in
  match s with
  | [] => (0, Some (NumError fnAtoi s0 ErrSyntax))
  | c :: t =>
    let neg := Ascii.eqb c "-"%char in
    let s := if Ascii.eqb c "+"%char || neg then t else s in
    match s with
    | [] => (0, Some (NumError fnAtoi s0 ErrSyntax))
    | _ =>
      let cutoff := 2 ^ (IntSize - 1) in
      match parseDigits s 0 with
      | inr ErrSyntax => (0, Some (NumError fnAtoi s0 ErrSyntax))
      | inr ErrRange =>
        (* ParseUint gave maxUint64 *)
        if neg then (- cutoff, Some (NumError fnAtoi s0 ErrRange))
        else (cutoff - 1, Some (NumError fnAtoi s0 ErrRange))
      | inl un =>
        if negb neg && (cutoff <=? un)
        then (cutoff - 1, Some (NumError fnAtoi s0 ErrRange))
        else if neg && (cutoff <? un)
        then (- cutoff, Some (NumError fnAtoi s0 ErrRange))
        else (if neg then - un else un, None)
      end
    end
  end.

End strconv.

(* ================================================================= *)
(** ** Package [encoding/json]: marshalling a string *)

Module json.

(** [htmlSafeSet]: the ASCII bytes written without escaping, that is all
    of [0x20 .. 0x7f] but the double quote, the backslash and the three
    characters [&], [<], [>]. *)
Definition htmlSafeSet (b : Z) : bool :=
  (32 <=? b) && (b <? 128) &&
  negb ((b =? 34) || (b =? 92) || (b =? 38) || (b =? 60) || (b =? 62)).

Definition hex (d : Z) : ascii :=
  if d <? 10 then byte_of (48 + d) else byte_of (87 + d).

(** The escape sequence of an ASCII byte outside [htmlSafeSet]. *)
Definition escape (b : Z) : gostring :=
  if (b =? 92) || (b =? 34) then [backslash; byte_of b]
  else if b =? 8 then [backslash; "b"%char]
  else if b =? 12 then [backslash; "f"%char]
  else if b =? 10 then [backslash; "n"%char]
  else if b =? 13 then [backslash; "r"%char]
  else if b =? 9 then [backslash; "t"%char]
  else [backslash; "u"%char; "0"%char; "0"%char;
        hex (Z.shiftr b 4); hex (Z.land b 15)].

(** The loop of [appendString] with HTML escaping on, as [Marshal] runs
    it.  The source copies the runs between two escapes at once; here each
    byte or rune is copied as it is passed.  [fuel] bounds the number of
    iterations. *)
Fixpoint appendString_loop (fuel : nat) (src : gostring) : gostring :=
  match fuel with
  | O => []
  | S fuel' =>
    match src with
    | [] => []
    | c :: t =>
      let b := byteval c in
      if b <? utf8.RuneSelf then
        if htmlSafeSet b then c :: appendString_loop fuel' t
        else escape b ++ appendString_loop fuel' t
      else
        let '(r, size) := utf8.DecodeRuneInString src in
        if (r =? utf8.RuneError) && (size =? 1)%nat
        then backslash :: str "ufffd" ++ appendString_loop fuel' t
        else if (r =? 8232) || (r =? 8233)      (* U+2028, U+2029 *)
        then backslash :: str "u202" ++ hex (Z.land r 15)
               :: appendString_loop fuel' (skipn size src)
        else firstn size src ++ appendString_loop fuel' (skipn size src)
    end
  end.

Definition appendString (src : gostring) : gostring :=
  quote :: appendString_loop (List.length src) src ++ [quote].

(** [Marshal] of a (pointer to a) string: its JSON string literal; this
    never fails. *)
Definition Marshal (s : gostring) : gostring * option error :=
  (appendString s, None).

End json.

(* ================================================================= *)
(** ** The message *)

(** Modelled from the spec: the declarations of the message kinds (the
    file [protocol/message.go]) are missing; the spec lists the eight kinds
    in this order.  The kinds are distinct [int] constants, and the codec
    only compares them. *)
Definition MessageTypeOpen : Z := 0.
Definition MessageTypeClose : Z := 1.
Definition MessageTypePing : Z := 2.
Definition MessageTypePong : Z := 3.
Definition MessageTypeEmpty : Z := 4.
Definition MessageTypeEmit : Z := 5.
Definition MessageTypeAckRequest : Z := 6.
Definition MessageTypeAckResponse : Z := 7.

(** Modelled from the spec: the declaration of the [Message] struct is
    missing too; the spec gives its fields: the kind, the namespace, the ack
    id, the method, the arguments and the source text.  [Encode] and
    [Decode] fix their types: [Type] and [AckId] are [int], the others
    [string]. *)
Record Message : Type := mkMessage {
  Type_ : Z;
  Namespace : gostring;
  AckId : Z;
  Method : gostring;
  Args : gostring;
  Source : gostring
}.

(** [&Message{}] *)
Definition zeroMessage : Message := mkMessage 0 [] 0 [] [] [].

Definition set_Type (m : Message) (t : Z) : Message :=
  mkMessage t (Namespace m) (AckId m) (Method m) (Args m) (Source m).
Definition set_Namespace (m : Message) (s : gostring) : Message :=
  mkMessage (Type_ m) s (AckId m) (Method m) (Args m) (Source m).
Definition set_AckId (m : Message) (a : Z) : Message :=
  mkMessage (Type_ m) (Namespace m) a (Method m) (Args m) (Source m).
Definition set_Method (m : Message) (s : gostring) : Message :=
  mkMessage (Type_ m) (Namespace m) (AckId m) s (Args m) (Source m).
Definition set_Args (m : Message) (s : gostring) : Message :=
  mkMessage (Type_ m) (Namespace m) (AckId m) (Method m) s (Source m).
Definition set_Source (m : Message) (s : gostring) : Message :=
  mkMessage (Type_ m) (Namespace m) (AckId m) (Method m) (Args m) s.

(* ================================================================= *)
(** ** [socketio.go]: the prefixes *)

Definition open : gostring := str "0".
Definition msg : gostring := str "4".
Definition emptyMessage : gostring := str "40".
Definition commonMessage : gostring := str "42".
Definition ackMessage : gostring := str "43".
Definition CloseMessage : gostring := str "1".
Definition PingMessage : gostring := str "2".
Definition PongMessage : gostring := str "3".

Definition typeToText (msgType : Z) : gostring * option error :=
  if msgType =? MessageTypeOpen then (open, None)
  else if msgType =? MessageTypeClose then (CloseMessage, None)
  else if msgType =? MessageTypePing then (PingMessage, None)
  else if msgType =? MessageTypePong then (PongMessage, None)
  else if msgType =? MessageTypeEmpty then (emptyMessage, None)
  else if (msgType =? MessageTypeEmit) || (msgType =? MessageTypeAckRequest)
  then (commonMessage, None)
  else if msgType =? MessageTypeAckResponse then (ackMessage, None)
  else ([], Some ErrorWrongMessageType).

(* ================================================================= *)
(** ** [Encode] *)

(** [if comma { result += ","; comma = false }] *)
Definition owed_comma (st : gostring * bool) : gostring * bool :=
  let '(result, comma) := st in
  if comma then (result ++ [comma_c], false) else (result, comma).

Definition Encode (m : Message) : gostring * option error :=
  let '(result, err) := typeToText (Type_ m) in
  match err with
  | Some e => ([], Some e)
  | None =>
    let comma := false in
    let '(result, comma) :=
      if negb (streq (Namespace m) [])
      then (result ++ Namespace m, true) else (result, comma) in
    if (Type_ m =? MessageTypeEmpty) || (Type_ m =? MessageTypePing)
       || (Type_ m =? MessageTypePong)
    then (result, None)
    else
      let '(result, comma) :=
        if (Type_ m =? MessageTypeAckRequest) || (Type_ m =? MessageTypeAckResponse)
        then
          let '(result, comma) := owed_comma (result, comma) in
          (result ++ strconv.Itoa (AckId m), comma)
        else (result, comma) in
      if (Type_ m =? MessageTypeOpen) || (Type_ m =? MessageTypeClose)
      then
        let '(result, comma) := owed_comma (result, comma) in
        (result ++ Args m, None)
      else if Type_ m =? MessageTypeAckResponse
      then
        let '(result, comma) := owed_comma (result, comma) in
        (result ++ [lbracket] ++ Args m ++ [rbracket], None)
      else
        let '(jsonMethod, err) := json.Marshal (Method m) in
        match err with
        | Some e => ([], Some e)
        | None =>
          let '(result, comma) := owed_comma (result, comma) in
          (result ++ [lbracket] ++ jsonMethod ++ [comma_c] ++ Args m ++ [rbracket],
           None)
        end
  end.

(* ================================================================= *)
(** ** The parsing helpers of [Decode] *)

Definition getMessageType (data : gostring) : exec (Z * gostring * option error) :=
  let t := 0 in
  let restText := data in
  let err : option error := None in
  if len data =? 0 then Return (t, restText, Some ErrorWrongMessageType)
  else
    restText <- slice_from data 1 ;;
    d01 <- slice data 0 1 ;;
    if streq d01 open then
      r <- slice_from data 1 ;; Return (MessageTypeOpen, r, None)
    else if streq d01 CloseMessage then
      r <- slice_from data 1 ;; Return (MessageTypeClose, r, None)
    else if streq d01 PingMessage then
      r <- slice_from data 1 ;; Return (MessageTypePing, r, None)
    else if streq d01 PongMessage then
      r <- slice_from data 1 ;; Return (MessageTypePong, r, None)
    else if streq d01 msg then
      if len data =? 1 then Return (0, [], Some ErrorWrongMessageType)
      else
        restText <- slice_from data 2 ;;
        d02 <- slice data 0 2 ;;
        if streq d02 emptyMessage then Return (MessageTypeEmpty, restText, err)
        else if streq d02 commonMessage then Return (MessageTypeAckRequest, restText, err)
        else if streq d02 ackMessage then Return (MessageTypeAckResponse, restText, err)
        else Return (t, restText, Some ErrorWrongMessageType)
    else Return (t, restText, Some ErrorWrongMessageType).

Definition getNamespace (text : gostring) : exec (gostring * gostring) :=
  let namespace : gostring := [] in
  let restText : gostring := [] in
  if len text =? 0 then Return (namespace, restText)
  else
    t1 <- slice_to text 1 ;;
    if streq t1 [slash] then
      let pos := strings.IndexByte text comma_c in
      if pos =? -1 then Return (text, [])
      else
        namespace <- slice_to text pos ;;
        if pos + 1 <? len text
        then restText <- slice_from text (pos + 1) ;; Return (namespace, restText)
        else Return (namespace, [])
    else Return (namespace, text).

(** Get ack id of current packet, if present *)
Definition getAck (text : gostring) : exec (Z * gostring * option error) :=
  if len text =? 0 then Return (0, [], Some ErrorWrongPacket)
  else
    let pos := strings.IndexByte text lbracket in
    if pos =? -1 then Return (0, [], Some ErrorWrongPacket)
    else
      t0 <- slice text 0 pos ;;
      let '(ack, err) := strconv.Atoi t0 in
      match err with
      | Some e => Return (0, [], Some e)
      | None => r <- slice_from text pos ;; Return (ack, r, None)
      end.

(** The local variables of [getMethod]. *)
Record methodVars : Type := mkVars {
  start : Z;
  end_ : Z;
  rest : Z;
  countQuote : Z
}.

(** How the [for ... range] loop of [getMethod] is left: by running off the
    end of the text or by [break] ([Finished]), or by [return]. *)
Inductive loopExit : Type :=
| Finished (v : methodVars)
| Returned (r : gostring * gostring * option error).

(** The effect of the [switch countQuote] and of [countQuote++], run when
    [c] is the double quote, on the variables, at index [i]; [None] is the
    [return] of the default case. *)
Definition on_quote (i : Z) (v : methodVars) : option methodVars :=
  if countQuote v =? 0
  then Some (mkVars (i + 1) (end_ v) (rest v) (countQuote v + 1))
  else if countQuote v =? 1
  then Some (mkVars (start v) i (i + 1) (countQuote v + 1))
  else None.

(** The body of the loop for the rune [c] at byte index [i]; [k] runs the
    following iterations. *)
Definition getMethod_body (i c : Z) (v : methodVars)
    (k : methodVars -> loopExit) : loopExit :=
  let after_quote :=
    if c =? byteval quote then on_quote i v else Some v in
  match after_quote with
  | None => Returned ([], [], Some ErrorWrongPacket)
  | Some v =>
    if c =? byteval comma_c then
      if countQuote v <? 2 then k v                       (* continue *)
      else Finished (mkVars (start v) (end_ v) (i + 1) (countQuote v))  (* break *)
    else k v
  end.

(** [for i, c := range text]: the loop visits the runes of [text]; [i] is
    the byte index of the rune [c], and an invalid byte counts as a rune of
    width one.  [skip] is the number of bytes of the current rune still to
    pass. *)
Fixpoint getMethod_range (skip : nat) (i : Z) (text : gostring)
    (v : methodVars) : loopExit :=
  match text with
  | [] => Finished v
  | _ :: t =>
    match skip with
    | S skip' => getMethod_range skip' (i + 1) t v
    | O =>
      let '(c, size) := utf8.DecodeRuneInString text in
      getMethod_body i c v (getMethod_range (Nat.pred size) (i + 1) t)
    end
  end.

(** Get message method of current packet, if present *)
Definition getMethod (text : gostring) : exec (gostring * gostring * option error) :=
  match getMethod_range 0 0 text (mkVars 0 0 0 0) with
  | Returned r => Return r
  | Finished v =>
    if (end_ v <? start v) || (len text <=? rest v)
    then Return ([], [], Some ErrorWrongPacket)
    else
      method <- slice text (start v) (end_ v) ;;
      restText <- slice text (rest v) (len text - 1) ;;
      Return (method, restText, None)
  end.

(* ================================================================= *)
(** ** [Decode] *)

Definition Decode (data : gostring) : exec (option Message * option error) :=
  let m := zeroMessage in
  let m := set_Source m data in
  '(t, rest, err) <- getMessageType data ;;
  let m := set_Type m t in
  match err with
  | Some e => Return (None, Some e)
  | None =>
    '(ns, rest) <- getNamespace rest ;;
    let m := set_Namespace m ns in
    if Type_ m =? MessageTypeOpen then Return (Some (set_Args m rest), None)
    else if (Type_ m =? MessageTypeClose) || (Type_ m =? MessageTypePing)
            || (Type_ m =? MessageTypePong) || (Type_ m =? MessageTypeEmpty)
    then Return (Some m, None)
    else
      '(ack, rest, err) <- getAck rest ;;
      let m := set_AckId m ack in
      if Type_ m =? MessageTypeAckResponse then
        match err with
        | Some e => Return (None, Some e)
        | None =>
          a <- slice rest 1 (len rest - 1) ;;
          Return (Some (set_Args m a), None)
        end
      else
        '(m, rest) <-
          match err with
          | Some _ =>
            r <- slice_from data 2 ;; Return (set_Type m MessageTypeEmit, r)
          | None => Return (m, rest)
          end ;;
        '(method, args, err) <- getMethod rest ;;
        let m := set_Args (set_Method m method) args in
        match err with
        | Some e => Return (None, Some e)
        | None => Return (Some m, None)
        end
  end.

Definition MustEncode (m : Message) : exec gostring :=
  let '(result, err) := Encode m in
  match err with
  | Some e => Panic (PanicError e)
  | None => Return result
  end.

(* ================================================================= *)
(** ** Vocabulary of the statements *)

(** [no_byte c s]: the byte [c] does not occur in [s]. *)
Definition no_byte (c : ascii) (s : gostring) : bool :=
  forallb (fun x => negb (Ascii.eqb x c)) s.

(** [has_prefix p data]: [data] starts with [p]. *)
Definition has_prefix (p data : gostring) : bool :=
  streq (firstn (List.length p) data) p.

(** The prefixes of the kind/prefix table. *)
Definition prefixes : list gostring :=
  [open; CloseMessage; PingMessage; PongMessage;
   emptyMessage; commonMessage; ackMessage].

(** [classified data]: [data] starts with a prefix of the table. *)
Definition classified (data : gostring) : bool :=
  existsb (fun p => has_prefix p data) prefixes.

(** The decimal digits. *)
Definition is_digit (c : ascii) : bool :=
  (48 <=? byteval c) && (byteval c <=? 57).

(** The values of a Go [int]. *)
Definition is_int (z : Z) : bool :=
  (- 2 ^ (strconv.IntSize - 1) <=? z) && (z <? 2 ^ (strconv.IntSize - 1)).

(** [high_bytes s]: no byte of [s] is an ASCII byte. *)
Definition high_bytes (s : gostring) : bool :=
  forallb (fun x => utf8.RuneSelf <=? byteval x) s.

(** [quoted s]: [s] between two double quotes. *)
Definition quoted (s : gostring) : gostring := quote :: s ++ [quote].

(** [json_verbatim s]: the JSON string literal of [s] is [s] itself
    between two double quotes; nothing in [s] needs an escape. *)
Definition json_verbatim (s : gostring) : bool :=
  streq (json.appendString s) (quote :: s ++ [quote]).

(** The loop of [getMethod] run byte by byte instead of rune by rune. *)
Fixpoint getMethod_bytes (i : Z) (text : gostring) (v : methodVars) : loopExit :=
  match text with
  | [] => Finished v
  | c :: t => getMethod_body i (byteval c) v (getMethod_bytes (i + 1) t)
  end.

(** The kinds [typeToText] knows. *)
Definition recognized (t : Z) : bool :=
  existsb (Z.eqb t)
    [MessageTypeOpen; MessageTypeClose; MessageTypePing; MessageTypePong;
     MessageTypeEmpty; MessageTypeEmit; MessageTypeAckRequest;
     MessageTypeAckResponse].

(** The kinds that carry nothing after the namespace when decoded, with
    their prefixes. *)
Definition terminal_kinds : list (gostring * Z) :=
  [(CloseMessage, MessageTypeClose); (PingMessage, MessageTypePing);
   (PongMessage, MessageTypePong); (emptyMessage, MessageTypeEmpty)].

(** What [Decode] works out for a text of the class of [42] before it
    calls [getMethod]: the kind, the namespace, the ack id and the text
    handed to [getMethod]. *)
Definition common_head (t : gostring) : exec (Z * gostring * Z * gostring) :=
  ' (ns, rest) <- getNamespace t ;;
  ' (ack, body, err) <- getAck rest ;;
  match err with
  | None => Return (MessageTypeAckRequest, ns, ack, body)
  | Some _ => Return (MessageTypeEmit, ns, ack, t)
  end.

(** The comma [Encode] writes after a namespace. *)
Definition separator (ns : gostring) : gostring :=
  if streq ns [] then [] else [comma_c].

(** The wire grammar, kind by kind, with the comma after the namespace for
    every kind that [Encode] gives a body; [None] for a kind that is not
    recognized. *)
Definition wire_grammar (m : Message) : option gostring :=
  let ns := Namespace m in
  let t := Type_ m in
  if t =? MessageTypeOpen then Some (open ++ ns ++ separator ns ++ Args m)
  else if t =? MessageTypeClose
  then Some (CloseMessage ++ ns ++ separator ns ++ Args m)
  else if t =? MessageTypePing then Some (PingMessage ++ ns)
  else if t =? MessageTypePong then Some (PongMessage ++ ns)
  else if t =? MessageTypeEmpty then Some (emptyMessage ++ ns)
  else if t =? MessageTypeEmit
  then Some (commonMessage ++ ns ++ separator ns
             ++ [lbracket] ++ fst (json.Marshal (Method m))
             ++ [comma_c] ++ Args m ++ [rbracket])
  else if t =? MessageTypeAckRequest
  then Some (commonMessage ++ ns ++ separator ns ++ strconv.Itoa (AckId m)
             ++ [lbracket] ++ fst (json.Marshal (Method m))
             ++ [comma_c] ++ Args m ++ [rbracket])
  else if t =? MessageTypeAckResponse
  then Some (ackMessage ++ ns ++ separator ns ++ strconv.Itoa (AckId m)
             ++ [lbracket] ++ Args m ++ [rbracket])
  else None.

(** A namespace as [getNamespace] reads one back: empty, or a text that
    starts with a slash and holds no comma. *)
Definition namespace_ok (ns : gostring) : bool :=
  streq ns [] || (has_prefix [slash] ns && no_byte comma_c ns).

(** The messages that [Decode] reads back from what [Encode] writes. *)
Definition well_formed (m : Message) : bool :=
  let t := Type_ m in
  namespace_ok (Namespace m) &&
  (if t =? MessageTypeOpen
   then (AckId m =? 0) && streq (Method m) []
        && (negb (streq (Namespace m) []) || negb (has_prefix [slash] (Args m)))
   else if (t =? MessageTypeClose) || (t =? MessageTypePing)
           || (t =? MessageTypePong) || (t =? MessageTypeEmpty)
   then (AckId m =? 0) && streq (Method m) [] && streq (Args m) []
   else if t =? MessageTypeEmit
   then (AckId m =? 0) && json_verbatim (Method m)
        && no_byte quote (Namespace m)
   else if t =? MessageTypeAckRequest
   then is_int (AckId m) && json_verbatim (Method m)
   else if t =? MessageTypeAckResponse
   then is_int (AckId m) && streq (Method m) []
   else false).

(** The kinds whose wire form carries an ack id, a method, and, when
    written by [Encode] or read by [Decode], arguments. *)
Definition carries_ack (k : Z) : bool :=
  (k =? MessageTypeAckRequest) || (k =? MessageTypeAckResponse).

Definition carries_method (k : Z) : bool :=
  (k =? MessageTypeEmit) || (k =? MessageTypeAckRequest).

Definition encodes_args (k : Z) : bool :=
  (k =? MessageTypeOpen) || (k =? MessageTypeClose) || carries_ack k
  || carries_method k.

Definition decodes_args (k : Z) : bool :=
  (k =? MessageTypeOpen) || carries_ack k || carries_method k.

(** The kind [getMessageType] gives for the prefix of a kind: the class of
    [42] is read as an AckRequest first. *)
Definition kind_read (k : Z) : Z :=
  if k =? MessageTypeEmit then MessageTypeAckRequest else k.

Definition wrong_packet : gostring * gostring * option error :=
  ([], [], Some ErrorWrongPacket).

(** The shapes of a text as [getMethod] sees it, with the result for each.
    The text is cut at its first quote, at its second quote, and then at
    the first quote or comma after that; [x] is the last byte of the
    text. *)
Inductive method_shape : gostring -> gostring * gostring * option error -> Prop :=
| shape_empty :
    method_shape [] wrong_packet
| shape_no_quote (b : gostring) (x : ascii) :
    no_byte quote (b ++ [x]) = true ->
    method_shape (b ++ [x]) ([], b, None)
| shape_one_quote (a b : gostring) :
    no_byte quote a = true -> no_byte quote b = true ->
    method_shape (a ++ quote :: b) wrong_packet
| shape_ends_at_quote (a m : gostring) :
    no_byte quote a = true -> no_byte quote m = true ->
    method_shape (a ++ quote :: m ++ [quote]) wrong_packet
| shape_no_comma (a m b : gostring) (x : ascii) :
    no_byte quote a = true -> no_byte quote m = true ->
    no_byte quote (b ++ [x]) = true -> no_byte comma_c (b ++ [x]) = true ->
    method_shape (a ++ quote :: m ++ quote :: b ++ [x]) (m, b, None)
| shape_third_quote (a m b c : gostring) :
    no_byte quote a = true -> no_byte quote m = true ->
    no_byte quote b = true -> no_byte comma_c b = true ->
    method_shape (a ++ quote :: m ++ quote :: b ++ quote :: c) wrong_packet
| shape_ends_at_comma (a m b : gostring) :
    no_byte quote a = true -> no_byte quote m = true ->
    no_byte quote b = true -> no_byte comma_c b = true ->
    method_shape (a ++ quote :: m ++ quote :: b ++ [comma_c]) wrong_packet
| shape_comma (a m b args : gostring) (x : ascii) :
    no_byte quote a = true -> no_byte quote m = true ->
    no_byte quote b = true -> no_byte comma_c b = true ->
    method_shape (a ++ quote :: m ++ quote :: b ++ comma_c :: args ++ [x])
                 (m, args, None).

(** What [Decode] returns for a text with a namespace, from what it returns
    for the text without it. *)
Definition with_namespace (ns data : gostring)
    (o : exec (option Message * option error))
  : exec (option Message * option error) :=
  match o with
  | Return (Some m, None) =>
    Return (Some (set_Source (set_Namespace m ns) data), None)
  | _ => o
  end.

(* ================================================================= *)
(** * Properties *)

(** ** Strings, bytes and slices *)

Lemma streq_spec (a b : gostring) : reflect (a = b) (streq a b).
Proof.
  revert b; induction a as [|x a IH]; intros [|y b]; simpl;
    try (constructor; congruence).
  destruct (Ascii.eqb_spec x y) as [->|Hxy]; simpl.
  - destruct (IH b) as [->|Hab]; constructor; congruence.
  - constructor; congruence.
Qed.

Lemma streq_refl (a : gostring) : streq a a = true.
Proof. destruct (streq_spec a a); congruence. Qed.

Lemma streq_nil_r (a : gostring) : streq a [] = true <-> a = [].
Proof. destruct a; simpl; split; congruence. Qed.

Lemma byteval_range (c : ascii) : 0 <= byteval c < 256.
Proof.
  unfold byteval. pose proof (N_ascii_bounded c). lia.
Qed.

Lemma byteval_byte_of (z : Z) : 0 <= z < 256 -> byteval (byte_of z) = z.
Proof.
  intros H. unfold byteval, byte_of.
  rewrite N_ascii_embedding by lia. lia.
Qed.

Lemma byteval_inj (a b : ascii) : byteval a = byteval b -> a = b.
Proof.
  unfold byteval. intros H.
  rewrite <- (ascii_N_embedding a), <- (ascii_N_embedding b).
  f_equal. lia.
Qed.

Lemma byteval_eqb (a b : ascii) : (byteval a =? byteval b) = Ascii.eqb a b.
Proof.
  destruct (Ascii.eqb_spec a b) as [->|Hab].
  - apply Z.eqb_refl.
  - apply Z.eqb_neq. intros H. apply Hab, byteval_inj, H.
Qed.

Lemma len_nil : len [] = 0.
Proof. reflexivity. Qed.

Lemma len_cons (c : ascii) (s : gostring) : len (c :: s) = 1 + len s.
Proof. unfold len. simpl List.length. lia. Qed.

Lemma len_app (a b : gostring) : len (a ++ b) = len a + len b.
Proof. unfold len. rewrite length_app. lia. Qed.

Lemma len_nonneg (s : gostring) : 0 <= len s.
Proof. unfold len. lia. Qed.

Lemma len_zero (s : gostring) : len s = 0 -> s = [].
Proof. destruct s; [reflexivity | rewrite len_cons; pose proof (len_nonneg s); lia]. Qed.

Create Rewrite HintDb len.
#[local] Hint Rewrite len_nil len_cons len_app : len.

Lemma slice_ok (s : gostring) (lo hi : Z) :
  0 <= lo -> lo <= hi -> hi <= len s ->
  slice s lo hi = Return (firstn (Z.to_nat (hi - lo)) (skipn (Z.to_nat lo) s)).
Proof.
  intros H0 H1 H2. unfold slice.
  replace (0 <=? lo) with true by (symmetry; apply Z.leb_le; lia).
  replace (lo <=? hi) with true by (symmetry; apply Z.leb_le; lia).
  replace (hi <=? len s) with true by (symmetry; apply Z.leb_le; lia).
  reflexivity.
Qed.

Lemma slice_panics (s : gostring) (lo hi : Z) :
  lo < 0 \/ hi < lo \/ len s < hi ->
  slice s lo hi = Panic (SliceBoundsOutOfRange lo hi (len s)).
Proof.
  intros H. unfold slice.
  destruct (0 <=? lo) eqn:E0; [|reflexivity].
  destruct (lo <=? hi) eqn:E1; [|reflexivity].
  destruct (hi <=? len s) eqn:E2; [|reflexivity].
  apply Z.leb_le in E0, E1, E2. lia.
Qed.

(** The middle of three pieces. *)
Lemma slice_middle (a b c : gostring) :
  slice (a ++ b ++ c) (len a) (len a + len b) = Return b.
Proof.
  pose proof (len_nonneg a). pose proof (len_nonneg b). pose proof (len_nonneg c).
  rewrite slice_ok by (autorewrite with len; lia).
  apply f_equal. unfold len.
  rewrite Nat2Z.id.
  replace (Z.to_nat (Z.of_nat (List.length a) + Z.of_nat (List.length b)
                     - Z.of_nat (List.length a))) with (List.length b) by lia.
  rewrite skipn_app, skipn_all, Nat.sub_diag. simpl.
  rewrite firstn_app, firstn_all, Nat.sub_diag. simpl. apply app_nil_r.
Qed.

Lemma slice_from_app (a b : gostring) : slice_from (a ++ b) (len a) = Return b.
Proof.
  unfold slice_from.
  pose proof (slice_middle a b []) as H. rewrite app_nil_r in H.
  rewrite len_app. exact H.
Qed.

Lemma slice_to_app (a b : gostring) : slice_to (a ++ b) (len a) = Return a.
Proof.
  unfold slice_to. exact (slice_middle [] a b).
Qed.

(** A slice that does not panic splits the string in three. *)
Lemma slice_inv (s : gostring) (lo hi : Z) (r : gostring) :
  slice s lo hi = Return r ->
  exists a c, s = a ++ r ++ c /\ len a = lo /\ len r = hi - lo.
Proof.
  unfold slice. intros H.
  destruct (0 <=? lo) eqn:E0; [|discriminate].
  destruct (lo <=? hi) eqn:E1; [|discriminate].
  destruct (hi <=? len s) eqn:E2; [|discriminate].
  apply Z.leb_le in E0, E1, E2. simpl in H. injection H as <-.
  unfold len in *.
  exists (firstn (Z.to_nat lo) s),
         (skipn (Z.to_nat (hi - lo)) (skipn (Z.to_nat lo) s)).
  rewrite firstn_skipn, firstn_skipn. split; [reflexivity|].
  rewrite !length_firstn, length_skipn. lia.
Qed.

Lemma app_same_length (a a' b b' : gostring) :
  List.length a = List.length a' -> a ++ b = a' ++ b' -> a = a' /\ b = b'.
Proof.
  revert a'; induction a as [|x a IH]; intros [|x' a'] Hl H;
    try discriminate; [split; [reflexivity | exact H]|].
  simpl in H. injection H as -> H. injection Hl as Hl.
  destruct (IH a' Hl H) as [-> ->]. split; reflexivity.
Qed.

Lemma slice_from_1 (c : ascii) (t : gostring) : slice_from (c :: t) 1 = Return t.
Proof. exact (slice_from_app [c] t). Qed.

Lemma slice_0_1 (c : ascii) (t : gostring) : slice (c :: t) 0 1 = Return [c].
Proof. exact (slice_to_app [c] t). Qed.

Lemma slice_from_2 (c d : ascii) (t : gostring) :
  slice_from (c :: d :: t) 2 = Return t.
Proof. exact (slice_from_app [c; d] t). Qed.

Lemma slice_0_2 (c d : ascii) (t : gostring) :
  slice (c :: d :: t) 0 2 = Return [c; d].
Proof. exact (slice_to_app [c; d] t). Qed.

Lemma no_byte_app (c : ascii) (a b : gostring) :
  no_byte c (a ++ b) = no_byte c a && no_byte c b.
Proof. apply forallb_app. Qed.

Lemma no_byte_cons (c x : ascii) (s : gostring) :
  no_byte c (x :: s) = negb (Ascii.eqb x c) && no_byte c s.
Proof. reflexivity. Qed.

(** ** [strings.IndexByte] *)

Lemma IndexByte_range (s : gostring) (c : ascii) :
  -1 <= strings.IndexByte s c < len s.
Proof.
  induction s as [|x s IH]; simpl.
  - rewrite len_nil. lia.
  - rewrite len_cons. pose proof (len_nonneg s).
    destruct (Ascii.eqb x c); [lia|].
    destruct (strings.IndexByte s c <? 0) eqn:E; [lia|].
    apply Z.ltb_ge in E. lia.
Qed.

Lemma IndexByte_hit (p s : gostring) (c : ascii) :
  no_byte c p = true -> strings.IndexByte (p ++ c :: s) c = len p.
Proof.
  induction p as [|x p IH]; simpl; intros H.
  - now rewrite Ascii.eqb_refl.
  - apply andb_prop in H as [Hx Hp].
    destruct (Ascii.eqb x c); [discriminate|].
    rewrite (IH Hp), len_cons. pose proof (len_nonneg p).
    destruct (len p <? 0) eqn:E; [apply Z.ltb_lt in E; lia | lia].
Qed.

Lemma IndexByte_none (s : gostring) (c : ascii) :
  strings.IndexByte s c = -1 <-> no_byte c s = true.
Proof.
  induction s as [|x s IH]; simpl.
  - split; reflexivity.
  - pose proof (IndexByte_range s c) as R.
    destruct (Ascii.eqb x c); simpl.
    + split; discriminate.
    + destruct (strings.IndexByte s c <? 0) eqn:E.
      * apply Z.ltb_lt in E. rewrite <- IH. split; intros; lia.
      * apply Z.ltb_ge in E. rewrite <- IH. split; intros; lia.
Qed.

Lemma IndexByte_split (s : gostring) (c : ascii) :
  strings.IndexByte s c <> -1 ->
  exists p r, s = p ++ c :: r /\ no_byte c p = true
              /\ strings.IndexByte s c = len p.
Proof.
  induction s as [|x s IH]; simpl; intros H.
  - congruence.
  - destruct (Ascii.eqb_spec x c) as [->|Hxc].
    + exists [], s. repeat split.
    + pose proof (IndexByte_range s c) as R.
      destruct (strings.IndexByte s c <? 0) eqn:E; [congruence|].
      apply Z.ltb_ge in E.
      destruct IH as (p & r & -> & Hp & Hi); [lia|].
      exists (x :: p), r. split; [reflexivity|]. split.
      * rewrite no_byte_cons, Hp.
        destruct (Ascii.eqb_spec x c); [contradiction | reflexivity].
      * rewrite len_cons. lia.
Qed.

(** ** [getMessageType] *)

(** The function, read off the first two bytes. *)
Lemma getMessageType_cons (c : ascii) (t : gostring) :
  getMessageType (c :: t) =
  if Ascii.eqb c "0" then Return (MessageTypeOpen, t, None)
  else if Ascii.eqb c "1" then Return (MessageTypeClose, t, None)
  else if Ascii.eqb c "2" then Return (MessageTypePing, t, None)
  else if Ascii.eqb c "3" then Return (MessageTypePong, t, None)
  else if Ascii.eqb c "4" then
    match t with
    | [] => Return (0, [], Some ErrorWrongMessageType)
    | d :: t' =>
      if Ascii.eqb d "0" then Return (MessageTypeEmpty, t', None)
      else if Ascii.eqb d "2" then Return (MessageTypeAckRequest, t', None)
      else if Ascii.eqb d "3" then Return (MessageTypeAckResponse, t', None)
      else Return (0, t', Some ErrorWrongMessageType)
    end
  else Return (0, t, Some ErrorWrongMessageType).
Proof.
  unfold getMessageType.
  rewrite len_cons. pose proof (len_nonneg t) as Ht.
  destruct (Z.eqb_spec (1 + len t) 0) as [E|_]; [lia|].
  rewrite slice_from_1, slice_0_1. cbn [bind].
  unfold open, CloseMessage, PingMessage, PongMessage, msg. cbn [streq str list_ascii_of_string].
  rewrite !andb_true_r.
  destruct (Ascii.eqb c "0"); [reflexivity|].
  destruct (Ascii.eqb c "1"); [reflexivity|].
  destruct (Ascii.eqb c "2"); [reflexivity|].
  destruct (Ascii.eqb c "3"); [reflexivity|].
  destruct (Ascii.eqb_spec c "4") as [->|_]; [|reflexivity].
  destruct t as [|d t'].
  - reflexivity.
  - rewrite len_cons. pose proof (len_nonneg t') as Ht'.
    destruct (Z.eqb_spec (1 + (1 + len t')) 1) as [E|_]; [lia|].
    rewrite slice_from_2, slice_0_2. cbn [bind].
    unfold emptyMessage, commonMessage, ackMessage. cbn [streq str list_ascii_of_string].
    rewrite !andb_true_r.
    destruct (Ascii.eqb d "0"); [reflexivity|].
    destruct (Ascii.eqb d "2"); [reflexivity|].
    destruct (Ascii.eqb d "3"); reflexivity.
Qed.

Lemma getMessageType_nil :
  getMessageType [] = Return (0, [], Some ErrorWrongMessageType).
Proof. reflexivity. Qed.

(** [getMessageType] never panics, and its only error is
    [ErrorWrongMessageType], returned exactly for the texts that start with
    no prefix of the table. *)
Lemma getMessageType_total (data : gostring) :
  exists t r e, getMessageType data = Return (t, r, e)
    /\ (e = None \/ e = Some ErrorWrongMessageType)
    /\ (e = None <-> classified data = true).
Proof.
  destruct data as [|c t].
  - exists 0, [], (Some ErrorWrongMessageType). rewrite getMessageType_nil.
    repeat split; auto; discriminate.
  - rewrite getMessageType_cons.
    unfold classified, prefixes, has_prefix,
      open, CloseMessage, PingMessage, PongMessage,
      emptyMessage, commonMessage, ackMessage.
    simpl existsb. rewrite !andb_true_r.
    destruct (Ascii.eqb_spec c "0") as [->|H0];
      [do 3 eexists; repeat split; eauto|].
    destruct (Ascii.eqb_spec c "1") as [->|H1];
      [do 3 eexists; repeat split; eauto|].
    destruct (Ascii.eqb_spec c "2") as [->|H2];
      [do 3 eexists; repeat split; eauto|].
    destruct (Ascii.eqb_spec c "3") as [->|H3];
      [do 3 eexists; repeat split; eauto|].
    destruct (Ascii.eqb_spec c "4") as [->|H4].
    + destruct t as [|d t']; simpl.
      * do 3 eexists; repeat split; eauto; discriminate.
      * rewrite !andb_true_r.
        destruct (Ascii.eqb d "0"); [do 3 eexists; repeat split; eauto|].
        destruct (Ascii.eqb d "2"); [do 3 eexists; repeat split; eauto|].
        destruct (Ascii.eqb d "3"); [do 3 eexists; repeat split; eauto|].
        do 3 eexists; repeat split; eauto; discriminate.
    + destruct t as [|d t']; simpl; rewrite ?andb_false_r;
        do 3 eexists; repeat split; eauto; discriminate.
Qed.

(** ** [getNamespace] *)

Lemma has_prefix_1 (c x : ascii) (t : gostring) :
  has_prefix [c] (x :: t) = Ascii.eqb x c.
Proof. unfold has_prefix. simpl. apply andb_true_r. Qed.

Lemma getNamespace_cons (c : ascii) (t : gostring) :
  getNamespace (c :: t) =
  if Ascii.eqb c slash then
    let pos := strings.IndexByte (c :: t) comma_c in
    if pos =? -1 then Return (c :: t, [])
    else
      namespace <- slice_to (c :: t) pos ;;
      if pos + 1 <? len (c :: t)
      then restText <- slice_from (c :: t) (pos + 1) ;; Return (namespace, restText)
      else Return (namespace, [])
  else Return ([], c :: t).
Proof.
  unfold getNamespace.
  rewrite len_cons. pose proof (len_nonneg t) as Ht.
  destruct (Z.eqb_spec (1 + len t) 0) as [E|_]; [lia|].
  unfold slice_to at 1. rewrite slice_0_1. cbn [bind streq].
  rewrite andb_true_r. reflexivity.
Qed.

(** The three ways through [getNamespace]; it never panics. *)
Lemma getNamespace_cases (text : gostring) :
  (has_prefix [slash] text = false /\ getNamespace text = Return ([], text))
  \/ (has_prefix [slash] text = true /\ no_byte comma_c text = true
      /\ getNamespace text = Return (text, []))
  \/ (exists ns r, text = ns ++ comma_c :: r
      /\ has_prefix [slash] ns = true /\ no_byte comma_c ns = true
      /\ getNamespace text = Return (ns, r)).
Proof.
  destruct text as [|c t]; [left; split; reflexivity|].
  rewrite getNamespace_cons, has_prefix_1. cbv zeta.
  destruct (Ascii.eqb_spec c slash) as [->|Hc]; [|left; split; reflexivity].
  right.
  destruct (Z.eqb_spec (strings.IndexByte (slash :: t) comma_c) (-1)) as [E|E].
  - left. repeat split. now apply IndexByte_none.
  - right. destruct (IndexByte_split _ _ E) as (p & r & Hs & Hp & Hi).
    exists p, r. rewrite Hi, Hs.
    split; [reflexivity|].
    split.
    { destruct p as [|x p]; [discriminate|]. injection Hs as <- _.
      rewrite has_prefix_1. apply Ascii.eqb_refl. }
    split; [exact Hp|].
    rewrite slice_to_app. cbn [bind].
    pose proof (len_nonneg p) as Hp'. pose proof (len_nonneg r) as Hr.
    destruct (Z.ltb_spec (len p + 1) (len (p ++ comma_c :: r))) as [L|L];
      rewrite len_app, len_cons in L.
    + replace (len p + 1) with (len (p ++ [comma_c]))
        by (rewrite len_app, len_cons, len_nil; lia).
      replace (p ++ comma_c :: r) with ((p ++ [comma_c]) ++ r)
        by (rewrite <- app_assoc; reflexivity).
      rewrite slice_from_app. reflexivity.
    + assert (len r = 0) as Hr0 by lia.
      apply len_zero in Hr0. subst r. reflexivity.
Qed.

Lemma getNamespace_total (text : gostring) :
  exists ns r, getNamespace text = Return (ns, r).
Proof.
  destruct (getNamespace_cases text) as [[_ H]|[(_ & _ & H)|(ns & r & _ & _ & _ & H)]];
    rewrite H; eauto.
Qed.

(** A text that does not start with a slash has no namespace. *)
Lemma getNamespace_none (text : gostring) :
  has_prefix [slash] text = false -> getNamespace text = Return ([], text).
Proof.
  intros H.
  destruct (getNamespace_cases text) as [[_ E]|[(E & _)|(ns & r & -> & E & _)]];
    [exact E | congruence |].
  destruct ns as [|x ns]; [discriminate|].
  simpl in H. rewrite has_prefix_1 in *. congruence.
Qed.

(** A namespace, its comma and what follows. *)
Lemma getNamespace_comma (ns r : gostring) :
  has_prefix [slash] ns = true -> no_byte comma_c ns = true ->
  getNamespace (ns ++ comma_c :: r) = Return (ns, r).
Proof.
  intros Hs Hn.
  destruct (getNamespace_cases (ns ++ comma_c :: r))
    as [[E _]|[(_ & E & _)|(ns' & r' & Heq & _ & Hn' & E)]].
  - destruct ns as [|x ns]; [discriminate|].
    simpl in E. rewrite has_prefix_1 in *. congruence.
  - rewrite no_byte_app, no_byte_cons, Ascii.eqb_refl in E. simpl in E.
    rewrite andb_false_r in E. discriminate.
  - rewrite E. f_equal.
    assert (len ns = len ns') as Hl.
    { rewrite <- (IndexByte_hit ns r comma_c Hn), Heq.
      apply IndexByte_hit, Hn'. }
    assert (List.length ns = List.length ns') as Hl' by (unfold len in Hl; lia).
    destruct (app_same_length _ _ _ _ Hl' Heq) as [-> Hr].
    injection Hr as ->. reflexivity.
Qed.

(** A namespace alone, with no comma after it. *)
Lemma getNamespace_alone (ns : gostring) :
  has_prefix [slash] ns = true -> no_byte comma_c ns = true ->
  getNamespace ns = Return (ns, []).
Proof.
  intros Hs Hn.
  destruct (getNamespace_cases ns)
    as [[E _]|[(_ & _ & E)|(ns' & r' & Heq & _ & _ & _)]];
    [congruence | exact E |].
  rewrite Heq, no_byte_app, no_byte_cons, Ascii.eqb_refl in Hn.
  simpl in Hn. rewrite andb_false_r in Hn. discriminate.
Qed.

(** ** [strconv.Atoi] and [strconv.Itoa] *)

(** The error of [Atoi] is a [NumError] that names the function and the
    text. *)
Lemma Atoi_error (s : gostring) (v : Z) (e : error) :
  strconv.Atoi s = (v, Some e) -> exists k, e = NumError strconv.fnAtoi s k.
Proof.
  unfold strconv.Atoi. intros H.
  destruct s as [|c t]; [injection H as _ <-; eauto|].
  destruct (if (Ascii.eqb c "+" || Ascii.eqb c "-")%bool then t else c :: t);
    [injection H as _ <-; eauto|].
  destruct (strconv.parseDigits _ 0) as [un|[|]].
  - destruct (negb (Ascii.eqb c "-") && _); [injection H as _ <-; eauto|].
    destruct (Ascii.eqb c "-" && _); [injection H as _ <-; eauto|].
    discriminate.
  - injection H as _ <-; eauto.
  - destruct (Ascii.eqb c "-"); injection H as _ <-; eauto.
Qed.

Lemma digit_val (d : Z) : 0 <= d < 10 -> byteval (strconv.digit d) = 48 + d.
Proof. intros H. unfold strconv.digit. apply byteval_byte_of. lia. Qed.

(** The digits written by [formatBits] are read back by [parseDigits]. *)
Lemma parseDigits_formatBits (fuel : nat) :
  forall (u : Z) (acc : gostring),
    0 <= u < 2 ^ Z.of_nat fuel -> u <= strconv.maxUint64 ->
    strconv.parseDigits (strconv.formatBits fuel u acc) 0
    = strconv.parseDigits acc u.
Proof.
  induction fuel as [|fuel IH]; intros u acc Hu Hmax.
  - simpl in Hu. assert (u = 0) by lia. subst u. reflexivity.
  - cbn [strconv.formatBits].
    assert (H64 : strconv.maxUint64 = 18446744073709551615) by reflexivity.
    destruct (Z.ltb_spec u 10) as [L|L].
    + cbn [strconv.parseDigits]. rewrite digit_val by lia.
      replace ((48 <=? 48 + u) && (48 + u <=? 57)) with true
        by (symmetry; apply andb_true_intro; split; apply Z.leb_le; lia).
      replace (48 + u - 48) with u by lia.
      rewrite H64.
      change (18446744073709551615 / 10 + 1) with 1844674407370955162.
      destruct (Z.leb_spec 1844674407370955162 0); [lia|].
      destruct (Z.ltb_spec 18446744073709551615 (0 * 10 + u)); [lia|].
      f_equal.
    + rewrite Nat2Z.inj_succ, Z.pow_succ_r in Hu by lia.
      rewrite IH by (try split; try apply Z.div_pos; try lia;
                     try (apply Z.div_lt_upper_bound; lia);
                     try (apply Z.le_trans with u; [apply Z.div_le_upper_bound|]; lia)).
      cbn [strconv.parseDigits].
      pose proof (Z.mod_pos_bound u 10 ltac:(lia)) as Hm.
      rewrite digit_val by lia.
      replace ((48 <=? 48 + u mod 10) && (48 + u mod 10 <=? 57)) with true
        by (symmetry; apply andb_true_intro; split; apply Z.leb_le; lia).
      replace (48 + u mod 10 - 48) with (u mod 10) by lia.
      rewrite H64.
      change (18446744073709551615 / 10 + 1) with 1844674407370955162.
      pose proof (Z.div_mod u 10 ltac:(lia)) as Hdm.
      destruct (Z.leb_spec 1844674407370955162 (u / 10)); [lia|].
      destruct (Z.ltb_spec 18446744073709551615 (u / 10 * 10 + u mod 10)); [lia|].
      f_equal. lia.
Qed.

Lemma digits_fuel_enough (u : Z) :
  0 <= u -> u < 2 ^ Z.of_nat (strconv.digits_fuel u).
Proof.
  intros Hu. unfold strconv.digits_fuel.
  rewrite Nat2Z.inj_succ, Z2Nat.id by apply Z.log2_nonneg.
  destruct (Z.eq_dec u 0) as [->|Hn]; [reflexivity|].
  apply Z.log2_spec. lia.
Qed.

(** What [formatBits] writes: digits only, and at least one. *)
Lemma formatBits_digits (fuel : nat) :
  forall (u : Z) (acc : gostring),
    0 <= u -> forallb is_digit acc = true ->
    forallb is_digit (strconv.formatBits fuel u acc) = true.
Proof.
  induction fuel as [|fuel IH]; intros u acc Hu Hacc; [exact Hacc|].
  cbn [strconv.formatBits].
  destruct (Z.ltb_spec u 10) as [L|L].
  - cbn [forallb]. rewrite Hacc, andb_true_r.
    unfold is_digit. rewrite digit_val by lia.
    apply andb_true_intro; split; apply Z.leb_le; lia.
  - apply IH; [apply Z.div_pos; lia|].
    cbn [forallb]. rewrite Hacc, andb_true_r.
    pose proof (Z.mod_pos_bound u 10 ltac:(lia)) as Hm.
    unfold is_digit. rewrite digit_val by lia.
    apply andb_true_intro; split; apply Z.leb_le; lia.
Qed.

Lemma formatBits_nonempty (fuel : nat) (u : Z) (acc : gostring) :
  strconv.formatBits (S fuel) u acc <> [].
Proof.
  revert u acc. induction fuel as [|fuel IH]; intros u acc;
    cbn [strconv.formatBits]; destruct (u <? 10); try discriminate.
  apply IH.
Qed.

Lemma digit_neq (c x : ascii) :
  is_digit c = true -> is_digit x = false -> Ascii.eqb c x = false.
Proof.
  intros Hc Hx. destruct (Ascii.eqb_spec c x) as [->|]; congruence.
Qed.

Lemma digits_no_byte (x : ascii) (s : gostring) :
  is_digit x = false -> forallb is_digit s = true -> no_byte x s = true.
Proof.
  intros Hx. induction s as [|c s IH]; [reflexivity|].
  cbn [forallb]. intros H. apply andb_prop in H as [Hc Hs].
  rewrite no_byte_cons, (digit_neq c x Hc Hx), (IH Hs). reflexivity.
Qed.

(** The shape of [Itoa i]: an optional minus sign, then digits. *)
Lemma Itoa_shape (i : Z) :
  exists c ds, forallb is_digit (c :: ds) = true
    /\ strconv.Itoa i = (if i <? 0 then ["-"%char] else []) ++ c :: ds.
Proof.
  unfold strconv.Itoa, strconv.digits_fuel.
  destruct (Z.ltb_spec i 0) as [L|L].
  - pose proof (formatBits_nonempty (Z.to_nat (Z.log2 (- i))) (- i) []) as Hne.
    pose proof (formatBits_digits (S (Z.to_nat (Z.log2 (- i)))) (- i) []
                  ltac:(lia) eq_refl) as Hd.
    destruct (strconv.formatBits _ _ _) as [|c ds]; [congruence|].
    exists c, ds. split; [exact Hd | reflexivity].
  - pose proof (formatBits_nonempty (Z.to_nat (Z.log2 i)) i []) as Hne.
    pose proof (formatBits_digits (S (Z.to_nat (Z.log2 i))) i []
                  ltac:(lia) eq_refl) as Hd.
    destruct (strconv.formatBits _ _ _) as [|c ds]; [congruence|].
    exists c, ds. split; [exact Hd | reflexivity].
Qed.

(** A byte that is neither a digit nor the minus sign does not occur in
    [Itoa i]. *)
Lemma Itoa_no_byte (x : ascii) (i : Z) :
  is_digit x = false -> Ascii.eqb "-" x = false ->
  no_byte x (strconv.Itoa i) = true.
Proof.
  intros Hx Hm. destruct (Itoa_shape i) as (c & ds & Hd & ->).
  rewrite no_byte_app, (digits_no_byte x _ Hx Hd), andb_true_r.
  destruct (i <? 0); [|reflexivity].
  rewrite no_byte_cons, Hm. reflexivity.
Qed.

Lemma Itoa_no_slash (i : Z) (s : gostring) :
  has_prefix [slash] (strconv.Itoa i ++ s) = false.
Proof.
  pose proof (Itoa_no_byte slash i eq_refl eq_refl) as H.
  destruct (strconv.Itoa i) as [|c t] eqn:E.
  - destruct (Itoa_shape i) as (c & ds & _ & H').
    rewrite E in H'. destruct (i <? 0); discriminate.
  - simpl app. rewrite has_prefix_1.
    rewrite no_byte_cons in H. apply andb_prop in H as [H _].
    now apply negb_true_iff in H.
Qed.

(** [Atoi] reads back what [Itoa] writes, for every [int]. *)
Lemma Atoi_Itoa (i : Z) :
  is_int i = true -> strconv.Atoi (strconv.Itoa i) = (i, None).
Proof.
  unfold is_int. intros H. apply andb_prop in H as [Hlo Hhi].
  apply Z.leb_le in Hlo. apply Z.ltb_lt in Hhi.
  change (2 ^ (strconv.IntSize - 1)) with 9223372036854775808 in *.
  assert (H64 : strconv.maxUint64 = 18446744073709551615) by reflexivity.
  pose proof (Itoa_shape i) as (c & ds & Hd & Hs).
  rewrite Hs. unfold strconv.Itoa in Hs.
  destruct (Z.ltb_spec i 0) as [L|L].
  - assert (Hp : strconv.parseDigits
                   (strconv.formatBits (strconv.digits_fuel (- i)) (- i) []) 0
                 = inl (- i)).
    { apply (parseDigits_formatBits (strconv.digits_fuel (- i)) (- i) []);
        [split; [lia | apply digits_fuel_enough; lia] | lia]. }
    remember (strconv.formatBits (strconv.digits_fuel (- i)) (- i) []) as F.
    cbn [app] in Hs |- *. injection Hs as ->.
    unfold strconv.Atoi.
    change (Ascii.eqb "-" "-") with true.
    change (Ascii.eqb "-" "+") with false.
    cbn [orb negb andb]. rewrite Hp.
    change (2 ^ (strconv.IntSize - 1)) with 9223372036854775808.
    destruct (Z.ltb_spec 9223372036854775808 (- i)); [lia|].
    f_equal. lia.
  - assert (Hp : strconv.parseDigits
                   (strconv.formatBits (strconv.digits_fuel i) i []) 0
                 = inl i).
    { apply (parseDigits_formatBits (strconv.digits_fuel i) i []);
        [split; [lia | apply digits_fuel_enough; lia] | lia]. }
    remember (strconv.formatBits (strconv.digits_fuel i) i []) as F.
    cbn [app] in Hs |- *. subst F. rewrite Hs in Hp.
    cbn [forallb] in Hd. apply andb_prop in Hd as [Hc _].
    unfold strconv.Atoi.
    rewrite (digit_neq c "-" Hc eq_refl), (digit_neq c "+" Hc eq_refl).
    cbn [orb negb andb]. rewrite Hp.
    change (2 ^ (strconv.IntSize - 1)) with 9223372036854775808.
    destruct (Z.leb_spec 9223372036854775808 i); [lia|].
    reflexivity.
Qed.

(** ** [getAck] *)

Lemma getAck_no_bracket (text : gostring) :
  no_byte lbracket text = true ->
  getAck text = Return (0, [], Some ErrorWrongPacket).
Proof.
  intros H. unfold getAck.
  destruct (len text =? 0); [reflexivity|].
  apply IndexByte_none in H. rewrite H. reflexivity.
Qed.

(** With a bracket in the text, [getAck] hands what precedes the first one
    to [Atoi]. *)
Lemma getAck_bracket (p r : gostring) :
  no_byte lbracket p = true ->
  getAck (p ++ lbracket :: r) =
  match strconv.Atoi p with
  | (ack, None) => Return (ack, lbracket :: r, None)
  | (_, Some e) => Return (0, [], Some e)
  end.
Proof.
  intros H. unfold getAck.
  pose proof (len_nonneg p) as Hp. pose proof (len_nonneg r) as Hr.
  destruct (Z.eqb_spec (len (p ++ lbracket :: r)) 0) as [E|_];
    [rewrite len_app, len_cons in E; lia|].
  rewrite (IndexByte_hit p r lbracket H).
  destruct (Z.eqb_spec (len p) (-1)) as [E|_]; [lia|].
  pose proof (slice_to_app p (lbracket :: r)) as Hs. unfold slice_to in Hs.
  rewrite Hs. cbn [bind].
  destruct (strconv.Atoi p) as [ack [e|]]; [reflexivity|].
  rewrite slice_from_app. reflexivity.
Qed.

(** [getAck] never panics; it fails with [ErrorWrongPacket] or with the
    error of [Atoi], or returns the number and the text from the first
    bracket on. *)
Lemma getAck_cases (text : gostring) :
  (exists e, getAck text = Return (0, [], Some e)
     /\ (e = ErrorWrongPacket \/ exists num k, e = NumError strconv.fnAtoi num k))
  \/ (exists p r ack, text = p ++ lbracket :: r /\ no_byte lbracket p = true
        /\ strconv.Atoi p = (ack, None)
        /\ getAck text = Return (ack, lbracket :: r, None)).
Proof.
  destruct (no_byte lbracket text) eqn:E.
  - left. exists ErrorWrongPacket. split; [now apply getAck_no_bracket | now left].
  - assert (strings.IndexByte text lbracket <> -1) as Hi.
    { intros Hi. apply IndexByte_none in Hi. congruence. }
    destruct (IndexByte_split _ _ Hi) as (p & r & -> & Hp & _).
    rewrite (getAck_bracket p r Hp).
    destruct (strconv.Atoi p) as [ack [e|]] eqn:Ea.
    + left. exists e. split; [reflexivity|]. right.
      destruct (Atoi_error _ _ _ Ea) as [k ->]. eauto.
    + right. exists p, r, ack. auto.
Qed.

(** ** Runes *)

Lemma lor_lower (a b : Z) : 0 <= a -> 0 <= b -> a <= Z.lor a b /\ b <= Z.lor a b.
Proof.
  intros Ha Hb.
  assert (forall x y, 0 <= x -> 0 <= y -> x <= Z.lor x y) as H.
  { intros x y Hx Hy.
    pose proof (Z.add_lor_land x y) as E.
    pose proof (Z.sub_land_same_l y x) as E'.
    assert (0 <= Z.land y (Z.lnot x)) by (apply Z.land_nonneg; now left).
    rewrite (Z.land_comm y x) in E'. lia. }
  split; [apply H | rewrite Z.lor_comm; apply H]; assumption.
Qed.

Lemma land_low (x : Z) (k : Z) : 0 <= k -> Z.land x (Z.ones k) = x mod 2 ^ k.
Proof. intros. now apply Z.land_ones. Qed.

(** The runes of two, three and four bytes are not ASCII. *)
Lemma rune2_high (s0 s1 : Z) :
  194 <= s0 <= 223 -> 0 <= s1 ->
  128 <= Z.lor (Z.shiftl (Z.land s0 31) 6) (Z.land s1 63).
Proof.
  intros H0 H1.
  change 31 with (Z.ones 5). change 63 with (Z.ones 6).
  rewrite !land_low, Z.shiftl_mul_pow2 by lia.
  pose proof (Z.mod_pos_bound s1 (2 ^ 6) ltac:(lia)).
  assert (2 <= s0 mod 2 ^ 5).
  { change (2 ^ 5) with 32.
    pose proof (Z.div_mod s0 32 ltac:(lia)).
    pose proof (Z.mod_pos_bound s0 32 ltac:(lia)).
    assert (s0 / 32 = 6) by lia. lia. }
  pose proof (lor_lower (s0 mod 2 ^ 5 * 2 ^ 6) (s1 mod 2 ^ 6)
                ltac:(lia) ltac:(lia)).
  lia.
Qed.

Lemma rune3_high (s0 s1 s2 : Z) :
  224 <= s0 <= 239 -> (s0 = 224 -> 160 <= s1) -> 128 <= s1 <= 191 -> 0 <= s2 ->
  128 <= Z.lor (Z.lor (Z.shiftl (Z.land s0 15) 12) (Z.shiftl (Z.land s1 63) 6))
               (Z.land s2 63).
Proof.
  intros H0 H01 H1 H2.
  change 15 with (Z.ones 4). change 63 with (Z.ones 6).
  rewrite !land_low, !Z.shiftl_mul_pow2 by lia.
  pose proof (Z.mod_pos_bound s2 (2 ^ 6) ltac:(lia)).
  pose proof (Z.mod_pos_bound s1 (2 ^ 6) ltac:(lia)).
  pose proof (Z.mod_pos_bound s0 (2 ^ 4) ltac:(lia)).
  change (2 ^ 4) with 16 in *. change (2 ^ 6) with 64 in *.
  change (2 ^ 12) with 4096 in *.
  pose proof (Z.div_mod s0 16 ltac:(lia)).
  pose proof (Z.div_mod s1 64 ltac:(lia)).
  assert (s0 / 16 = 14) by lia. assert (s1 / 64 = 2) by lia.
  pose proof (lor_lower (s0 mod 16 * 4096) (s1 mod 64 * 64) ltac:(lia) ltac:(lia)).
  pose proof (lor_lower (Z.lor (s0 mod 16 * 4096) (s1 mod 64 * 64)) (s2 mod 64)
                ltac:(lia) ltac:(lia)).
  destruct (Z.eq_dec s0 224); lia.
Qed.

Lemma rune4_high (s0 s1 s2 s3 : Z) :
  240 <= s0 <= 244 -> (s0 = 240 -> 144 <= s1) -> 128 <= s1 <= 191 ->
  0 <= s2 -> 0 <= s3 ->
  128 <= Z.lor (Z.lor (Z.lor (Z.shiftl (Z.land s0 7) 18)
                             (Z.shiftl (Z.land s1 63) 12))
                      (Z.shiftl (Z.land s2 63) 6))
               (Z.land s3 63).
Proof.
  intros H0 H01 H1 H2 H3.
  change 7 with (Z.ones 3). change 63 with (Z.ones 6).
  rewrite !land_low, !Z.shiftl_mul_pow2 by lia.
  pose proof (Z.mod_pos_bound s3 (2 ^ 6) ltac:(lia)).
  pose proof (Z.mod_pos_bound s2 (2 ^ 6) ltac:(lia)).
  pose proof (Z.mod_pos_bound s1 (2 ^ 6) ltac:(lia)).
  pose proof (Z.mod_pos_bound s0 (2 ^ 3) ltac:(lia)).
  change (2 ^ 3) with 8 in *. change (2 ^ 6) with 64 in *.
  change (2 ^ 12) with 4096 in *. change (2 ^ 18) with 262144 in *.
  pose proof (Z.div_mod s0 8 ltac:(lia)).
  pose proof (Z.div_mod s1 64 ltac:(lia)).
  assert (s0 / 8 = 30) by lia. assert (s1 / 64 = 2) by lia.
  pose proof (lor_lower (s0 mod 8 * 262144) (s1 mod 64 * 4096)
                ltac:(lia) ltac:(lia)).
  pose proof (lor_lower (Z.lor (s0 mod 8 * 262144) (s1 mod 64 * 4096))
                (s2 mod 64 * 64) ltac:(lia) ltac:(lia)).
  pose proof (lor_lower (Z.lor (Z.lor (s0 mod 8 * 262144) (s1 mod 64 * 4096))
                               (s2 mod 64 * 64))
                (s3 mod 64) ltac:(lia) ltac:(lia)).
  destruct (Z.eq_dec s0 240); lia.
Qed.

Lemma first_spec (s0 : Z) (sz : nat) (lo hi : Z) :
  utf8.first s0 = Some (sz, lo, hi) ->
  128 <= lo /\ hi <= 191 /\
  ((sz = 2%nat /\ 194 <= s0 <= 223)
   \/ (sz = 3%nat /\ 224 <= s0 <= 239 /\ (s0 = 224 -> 160 <= lo))
   \/ (sz = 4%nat /\ 240 <= s0 <= 244 /\ (s0 = 240 -> 144 <= lo))).
Proof.
  unfold utf8.first.
  destruct (Z.ltb_spec s0 194); [discriminate|].
  destruct (Z.ltb_spec s0 224); [intros [= <- <- <-]; lia|].
  destruct (Z.eqb_spec s0 224); [intros [= <- <- <-]; lia|].
  destruct (Z.eqb_spec s0 237); [intros [= <- <- <-]; lia|].
  destruct (Z.ltb_spec s0 240); [intros [= <- <- <-]; lia|].
  destruct (Z.eqb_spec s0 240); [intros [= <- <- <-]; lia|].
  destruct (Z.ltb_spec s0 244); [intros [= <- <- <-]; lia|].
  destruct (Z.eqb_spec s0 244); [intros [= <- <- <-]; lia|].
  discriminate.
Qed.

Lemma decode_ascii (c : ascii) (t : gostring) :
  byteval c < utf8.RuneSelf ->
  utf8.DecodeRuneInString (c :: t) = (byteval c, 1%nat).
Proof.
  intros H. unfold utf8.DecodeRuneInString.
  destruct (Z.ltb_spec (byteval c) utf8.RuneSelf); [reflexivity | lia].
Qed.

(** A rune that starts with a byte that is not ASCII is not ASCII, and the
    bytes after the first that it spans are not ASCII either. *)
Lemma decode_high (c : ascii) (t : gostring) :
  utf8.RuneSelf <= byteval c ->
  exists r size, utf8.DecodeRuneInString (c :: t) = (r, S size)
    /\ utf8.RuneSelf <= r
    /\ (size <= List.length t)%nat
    /\ high_bytes (firstn size t) = true.
Proof.
  intros H. unfold utf8.DecodeRuneInString. unfold utf8.RuneSelf in *.
  destruct (Z.ltb_spec (byteval c) 128) as [L|_]; [lia|].
  assert (Herr : exists r size, (utf8.RuneError, 1%nat) = (r, S size)
            /\ 128 <= r /\ (size <= List.length t)%nat
            /\ high_bytes (firstn size t) = true).
  { exists utf8.RuneError, 0%nat. unfold utf8.RuneError.
    repeat split; [lia | lia]. }
  destruct (utf8.first (byteval c)) as [[[sz lo] hi]|] eqn:F; [|exact Herr].
  destruct (first_spec _ _ _ _ F) as (Hlo & Hhi & Hsz).
  destruct (List.length (c :: t) <? sz)%nat; [exact Herr|].
  destruct t as [|c1 t1]; [exact Herr|].
  unfold utf8.in_range, utf8.locb, utf8.hicb.
  destruct (Z.leb_spec lo (byteval c1)); [|exact Herr].
  destruct (Z.leb_spec (byteval c1) hi); [|exact Herr].
  cbn [andb negb].
  assert (Hb1 : (128 <=? byteval c1) = true) by (apply Z.leb_le; lia).
  pose proof (byteval_range c1).
  destruct Hsz as [(-> & Hs0)|[(-> & Hs0 & Hs1)|(-> & Hs0 & Hs1)]];
    cbn [Nat.leb].
  - do 2 eexists. split; [reflexivity|].
    split; [apply rune2_high; lia|].
    split; [simpl; lia|].
    unfold high_bytes, utf8.RuneSelf. simpl. now rewrite Hb1.
  - destruct t1 as [|c2 t2]; [exact Herr|].
    destruct (Z.leb_spec 128 (byteval c2)); [|exact Herr].
    destruct (Z.leb_spec (byteval c2) 191); [|exact Herr].
    cbn [andb negb].
    assert (Hb2 : (128 <=? byteval c2) = true) by (apply Z.leb_le; lia).
    do 2 eexists. split; [reflexivity|].
    split; [apply rune3_high; lia|].
    split; [simpl; lia|].
    unfold high_bytes, utf8.RuneSelf. simpl. now rewrite Hb1, Hb2.
  - destruct t1 as [|c2 t2]; [exact Herr|].
    destruct (Z.leb_spec 128 (byteval c2)); [|exact Herr].
    destruct (Z.leb_spec (byteval c2) 191); [|exact Herr].
    cbn [andb negb].
    assert (Hb2 : (128 <=? byteval c2) = true) by (apply Z.leb_le; lia).
    destruct t2 as [|c3 t3]; [exact Herr|].
    destruct (Z.leb_spec 128 (byteval c3)); [|exact Herr].
    destruct (Z.leb_spec (byteval c3) 191); [|exact Herr].
    cbn [andb negb].
    assert (Hb3 : (128 <=? byteval c3) = true) by (apply Z.leb_le; lia).
    do 2 eexists. split; [reflexivity|].
    split; [apply rune4_high; lia|].
    split; [simpl; lia|].
    unfold high_bytes, utf8.RuneSelf. simpl. now rewrite Hb1, Hb2, Hb3.
Qed.

Lemma decode_size (s : gostring) :
  (snd (utf8.DecodeRuneInString s) <= 4)%nat.
Proof.
  unfold utf8.DecodeRuneInString.
  repeat match goal with
         | |- context [match ?x with _ => _ end] => destruct x
         end; simpl; lia.
Qed.

(** ** The loop of [getMethod] *)

Lemma body_other (i c : Z) (v : methodVars) (k : methodVars -> loopExit) :
  c <> byteval quote -> c <> byteval comma_c -> getMethod_body i c v k = k v.
Proof.
  intros Hq Hc. unfold getMethod_body.
  destruct (Z.eqb_spec c (byteval quote)); [contradiction|].
  destruct (Z.eqb_spec c (byteval comma_c)); [contradiction|].
  reflexivity.
Qed.

Lemma body_quote (i : Z) (v : methodVars) (k : methodVars -> loopExit) :
  getMethod_body i (byteval quote) v k =
  match on_quote i v with
  | None => Returned ([], [], Some ErrorWrongPacket)
  | Some v' => k v'
  end.
Proof.
  unfold getMethod_body. rewrite Z.eqb_refl.
  destruct (on_quote i v); reflexivity.
Qed.

Lemma body_comma (i : Z) (v : methodVars) (k : methodVars -> loopExit) :
  getMethod_body i (byteval comma_c) v k =
  if countQuote v <? 2 then k v
  else Finished (mkVars (start v) (end_ v) (i + 1) (countQuote v)).
Proof. reflexivity. Qed.

Lemma body_ext (i c : Z) (v : methodVars) (k k' : methodVars -> loopExit) :
  (forall v', k v' = k' v') -> getMethod_body i c v k = getMethod_body i c v k'.
Proof.
  intros H. unfold getMethod_body.
  destruct (if c =? byteval quote then on_quote i v else Some v); [|reflexivity].
  rewrite H. reflexivity.
Qed.

(** Running the loop rune by rune or byte by byte is the same: the two
    bytes it looks for are ASCII, and an ASCII byte is always a rune of its
    own. *)
Lemma getMethod_range_bytes (text : gostring) :
  forall (skip : nat) (i : Z) (v : methodVars),
    high_bytes (firstn skip text) = true ->
    getMethod_range skip i text v = getMethod_bytes i text v.
Proof.
  induction text as [|c t IH]; intros skip i v H.
  - destruct skip; reflexivity.
  - cbn [getMethod_range getMethod_bytes].
    destruct skip as [|skip].
    + destruct (Z.ltb_spec (byteval c) utf8.RuneSelf) as [L|L].
      * rewrite decode_ascii by exact L.
        apply body_ext. intros v'. apply IH. reflexivity.
      * destruct (decode_high c t L) as (r & size & -> & Hr & _ & Hh).
        cbn [Nat.pred]. unfold utf8.RuneSelf in *.
        rewrite !body_other
          by (change (byteval quote) with 34; change (byteval comma_c) with 44; lia).
        apply IH, Hh.
    + cbn [firstn] in H. unfold high_bytes in H. cbn [forallb] in H.
      apply andb_prop in H as [Hc Hh]. apply Z.leb_le in Hc.
      unfold utf8.RuneSelf in *.
      rewrite body_other
        by (change (byteval quote) with 34; change (byteval comma_c) with 44; lia).
      apply IH, Hh.
Qed.

Lemma getMethod_eq (text : gostring) :
  getMethod text =
  match getMethod_bytes 0 text (mkVars 0 0 0 0) with
  | Returned r => Return r
  | Finished v =>
    if (end_ v <? start v) || (len text <=? rest v)
    then Return ([], [], Some ErrorWrongPacket)
    else
      method <- slice text (start v) (end_ v) ;;
      restText <- slice text (rest v) (len text - 1) ;;
      Return (method, restText, None)
  end.
Proof.
  unfold getMethod. rewrite getMethod_range_bytes by reflexivity. reflexivity.
Qed.

Lemma byte_neq (x c : ascii) : Ascii.eqb x c = false -> byteval x <> byteval c.
Proof.
  intros H E. apply byteval_inj in E. subst. rewrite Ascii.eqb_refl in H.
  discriminate.
Qed.

(** The loop passes over a stretch with no quote in it, when no comma of
    the stretch can stop it. *)
Lemma bytes_skip (p : gostring) :
  forall (i : Z) (v : methodVars) (s : gostring),
    no_byte quote p = true ->
    countQuote v < 2 \/ no_byte comma_c p = true ->
    getMethod_bytes i (p ++ s) v = getMethod_bytes (i + len p) s v.
Proof.
  induction p as [|x p IH]; intros i v s Hq Hc.
  - rewrite len_nil, Z.add_0_r. reflexivity.
  - rewrite no_byte_cons in Hq. apply andb_prop in Hq as [Hx Hq].
    apply negb_true_iff in Hx.
    cbn [app getMethod_bytes].
    rewrite len_cons.
    replace (i + (1 + len p)) with (i + 1 + len p) by lia.
    destruct (Ascii.eqb_spec x comma_c) as [->|Hn].
    + rewrite body_comma.
      destruct Hc as [Hc|Hc]; [|rewrite no_byte_cons, Ascii.eqb_refl in Hc; discriminate].
      destruct (Z.ltb_spec (countQuote v) 2); [|lia].
      apply IH; auto.
    + rewrite body_other.
      * apply IH; [exact Hq|].
        destruct Hc as [Hc|Hc]; [now left | right].
        rewrite no_byte_cons in Hc. now apply andb_prop in Hc as [_ Hc].
      * now apply byte_neq.
      * apply byte_neq. now destruct (Ascii.eqb_spec x comma_c).
Qed.

Lemma bytes_skip_all (p : gostring) (i : Z) (v : methodVars) :
  no_byte quote p = true ->
  countQuote v < 2 \/ no_byte comma_c p = true ->
  getMethod_bytes i p v = Finished v.
Proof.
  intros Hq Hc. rewrite <- (app_nil_r p), bytes_skip by assumption.
  reflexivity.
Qed.

Lemma bytes_quote (i : Z) (v : methodVars) (s : gostring) :
  getMethod_bytes i (quote :: s) v =
  match on_quote i v with
  | None => Returned ([], [], Some ErrorWrongPacket)
  | Some v' => getMethod_bytes (i + 1) s v'
  end.
Proof. cbn [getMethod_bytes]. apply body_quote. Qed.

Lemma bytes_comma (i : Z) (v : methodVars) (s : gostring) :
  2 <= countQuote v ->
  getMethod_bytes i (comma_c :: s) v
  = Finished (mkVars (start v) (end_ v) (i + 1) (countQuote v)).
Proof.
  intros H. cbn [getMethod_bytes]. rewrite body_comma.
  destruct (Z.ltb_spec (countQuote v) 2); [lia | reflexivity].
Qed.

(** The loop up to and including the closing quote of the method name:
    [a] and [m] hold no quote. *)
Lemma bytes_method (a m s : gostring) :
  no_byte quote a = true -> no_byte quote m = true ->
  getMethod_bytes 0 (a ++ quote :: m ++ quote :: s) (mkVars 0 0 0 0)
  = getMethod_bytes (len a + 1 + len m + 1) s
      (mkVars (len a + 1) (len a + 1 + len m) (len a + 1 + len m + 1) 2).
Proof.
  intros Ha Hm.
  rewrite bytes_skip by (auto; left; simpl; lia).
  rewrite bytes_quote. cbn [on_quote countQuote Z.eqb start end_ rest].
  rewrite bytes_skip by (auto; left; simpl; lia).
  rewrite bytes_quote. cbn [on_quote countQuote Z.eqb start end_ rest].
  rewrite !Z.add_0_l. reflexivity.
Qed.

(** ** [json.Marshal] of a string *)

Lemma escape_shape (b : Z) :
  exists x r, json.escape b = backslash :: x :: r.
Proof.
  unfold json.escape.
  repeat match goal with
         | |- context [if ?c then _ else _] => destruct c
         end; eauto.
Qed.

Lemma high_bytes_no_byte (x : ascii) (s : gostring) :
  byteval x < utf8.RuneSelf -> high_bytes s = true -> no_byte x s = true.
Proof.
  intros Hx. induction s as [|c s IH]; [reflexivity|].
  unfold high_bytes. cbn [forallb]. intros H.
  apply andb_prop in H as [Hc Hs]. apply Z.leb_le in Hc.
  rewrite no_byte_cons, (IH Hs), andb_true_r.
  destruct (Ascii.eqb_spec c x) as [->|]; [lia | reflexivity].
Qed.

(** The loop of [appendString] never shortens its input. *)
Lemma appendString_loop_length (fuel : nat) :
  forall src : gostring,
    (List.length src <= fuel)%nat ->
    (List.length src <= List.length (json.appendString_loop fuel src))%nat.
Proof.
  induction fuel as [|fuel IH]; intros src Hf.
  - destruct src; simpl in *; lia.
  - destruct src as [|c t]; [simpl; lia|].
    cbn [json.appendString_loop]. simpl List.length in Hf.
    destruct (Z.ltb_spec (byteval c) utf8.RuneSelf) as [L|L].
    + pose proof (IH t ltac:(lia)).
      destruct (json.htmlSafeSet (byteval c)); [simpl; lia|].
      destruct (escape_shape (byteval c)) as (x & r & ->).
      simpl. rewrite length_app. lia.
    + pose proof (decode_size (c :: t)) as H4.
      destruct (decode_high c t L) as (r & size & Hd & _ & Hs & _).
      rewrite Hd in H4 |- *. cbn [snd] in H4.
      pose proof (IH t ltac:(lia)).
      pose proof (IH (skipn size t) ltac:(rewrite length_skipn; lia)) as IH'.
      rewrite length_skipn in IH'.
      destruct ((r =? utf8.RuneError) && (S size =? 1)%nat).
      { cbn [str list_ascii_of_string app List.length]. lia. }
      destruct ((r =? 8232) || (r =? 8233)).
      { cbn [str list_ascii_of_string app List.length skipn].
        destruct (Nat.eqb_spec (S size) 1); lia. }
      cbn [firstn skipn app List.length].
      rewrite length_app, length_firstn. lia.
Qed.

(** If the loop returns its input, the input holds no double quote. *)
Lemma appendString_loop_fixed (fuel : nat) :
  forall src : gostring,
    (List.length src <= fuel)%nat ->
    json.appendString_loop fuel src = src ->
    no_byte quote src = true.
Proof.
  induction fuel as [|fuel IH]; intros src Hf E.
  - destruct src; [reflexivity | simpl in Hf; lia].
  - destruct src as [|c t]; [reflexivity|].
    cbn [json.appendString_loop] in E. simpl List.length in Hf.
    destruct (Z.ltb_spec (byteval c) utf8.RuneSelf) as [L|L].
    + destruct (json.htmlSafeSet (byteval c)) eqn:Hsafe.
      * injection E as E. rewrite no_byte_cons, (IH t ltac:(lia) E), andb_true_r.
        destruct (Ascii.eqb_spec c quote) as [->|]; [discriminate | reflexivity].
      * destruct (escape_shape (byteval c)) as (x & r & Hesc).
        rewrite Hesc in E. cbn [app] in E. injection E as _ E.
        pose proof (appendString_loop_length fuel t ltac:(lia)) as Hl.
        apply (f_equal (@List.length ascii)) in E.
        simpl in E. rewrite length_app in E. lia.
    + destruct (decode_high c t L) as (r & size & Hd & _ & Hs & Hh).
      rewrite Hd in E.
      assert (Hc : c <> backslash).
      { intros ->. unfold utf8.RuneSelf in L. vm_compute in L. now apply L. }
      destruct ((r =? utf8.RuneError) && (S size =? 1)%nat);
        [injection E as E _; congruence|].
      destruct ((r =? 8232) || (r =? 8233));
        [injection E as E _; congruence|].
      cbn [firstn skipn app] in E. injection E as E.
      rewrite <- (firstn_skipn size t) in E at 3.
      apply app_inv_head in E.
      apply IH in E; [|rewrite length_skipn; lia].
      rewrite <- (firstn_skipn size t), no_byte_cons, no_byte_app, E.
      rewrite (high_bytes_no_byte quote _ ltac:(vm_compute; reflexivity) Hh).
      destruct (Ascii.eqb_spec c quote) as [->|]; [|reflexivity].
      unfold utf8.RuneSelf in L. vm_compute in L. exfalso. now apply L.
Qed.

(** A method name that is written verbatim: what [Marshal] returns, and
    that it holds no double quote. *)
Lemma json_verbatim_spec (s : gostring) :
  json_verbatim s = true ->
  json.Marshal s = (quote :: s ++ [quote], None) /\ no_byte quote s = true.
Proof.
  unfold json_verbatim, json.Marshal. intros H.
  destruct (streq_spec (json.appendString s) (quote :: s ++ [quote])) as [E|];
    [|discriminate].
  split; [now rewrite E|].
  unfold json.appendString in E. injection E as E.
  apply app_inv_tail in E.
  exact (appendString_loop_fixed _ s (Nat.le_refl _) E).
Qed.

Lemma json_safe_loop (fuel : nat) :
  forall s : gostring,
    (List.length s <= fuel)%nat ->
    forallb (fun c => json.htmlSafeSet (byteval c)) s = true ->
    json.appendString_loop fuel s = s.
Proof.
  induction fuel as [|fuel IH]; intros s Hf Hs.
  - destruct s; [reflexivity | simpl in Hf; lia].
  - destruct s as [|c t]; [reflexivity|].
    cbn [forallb] in Hs. apply andb_prop in Hs as [Hc Ht].
    simpl List.length in Hf.
    cbn [json.appendString_loop]. rewrite Hc.
    assert (byteval c < utf8.RuneSelf) as L.
    { unfold json.htmlSafeSet in Hc.
      apply andb_prop in Hc as [Hc _]. apply andb_prop in Hc as [_ Hc].
      now apply Z.ltb_lt in Hc. }
    destruct (Z.ltb_spec (byteval c) utf8.RuneSelf); [|lia].
    rewrite IH by (auto; lia). reflexivity.
Qed.

(** A string of bytes of [htmlSafeSet] is written verbatim. *)
Lemma json_safe_verbatim (s : gostring) :
  forallb (fun c => json.htmlSafeSet (byteval c)) s = true ->
  json_verbatim s = true.
Proof.
  intros H. unfold json_verbatim, json.appendString.
  rewrite json_safe_loop by auto. apply streq_refl.
Qed.

(** ** [getMethod] *)

Lemma slice_at (text a b c : gostring) (lo hi : Z) :
  text = a ++ b ++ c -> lo = len a -> hi = len a + len b ->
  slice text lo hi = Return b.
Proof. intros -> -> ->. apply slice_middle. Qed.

Ltac len_ltb :=
  repeat match goal with
         | |- context [?x <? ?y] => destruct (Z.ltb_spec x y); try lia
         | |- context [?x <=? ?y] => destruct (Z.leb_spec x y); try lia
         end.

Ltac list_eq :=
  repeat (progress (rewrite <- ?app_assoc; cbn [app])); reflexivity.

Ltac len_facts :=
  repeat match goal with
         | |- context [len ?s] =>
           lazymatch goal with
           | _ : 0 <= len s |- _ => fail
           | _ => pose proof (len_nonneg s)
           end
         end.

(** The closing quote, then a stretch [b] without quote or comma, then the
    separating comma: the method is [m] and the arguments are what follows
    the comma, less the last byte. *)
Lemma getMethod_comma (a m b args : gostring) (x : ascii) :
  no_byte quote a = true -> no_byte quote m = true ->
  no_byte quote b = true -> no_byte comma_c b = true ->
  getMethod (a ++ quote :: m ++ quote :: b ++ comma_c :: args ++ [x])
  = Return (m, args, None).
Proof.
  intros Ha Hm Hb Hb'.
  rewrite getMethod_eq, bytes_method by assumption.
  rewrite bytes_skip by auto.
  rewrite bytes_comma by (simpl; lia).
  cbn [start end_ rest countQuote].
  set (text := a ++ quote :: m ++ quote :: b ++ comma_c :: args ++ [x]).
  assert (Hl : len text = len a + 1 + len m + 1 + len b + 1 + len args + 1).
  { unfold text. autorewrite with len. lia. }
  rewrite Hl. len_facts. cbn [orb]. len_ltb. cbn [orb].
  rewrite (slice_at text (a ++ [quote]) m (quote :: b ++ comma_c :: args ++ [x]))
    by (unfold text; autorewrite with len; solve [list_eq | lia]).
  cbn [bind].
  rewrite (slice_at text (a ++ quote :: m ++ quote :: b ++ [comma_c]) args [x])
    by (unfold text; autorewrite with len; solve [list_eq | lia]).
  reflexivity.
Qed.

(** No comma after the closing quote: the arguments are what follows the
    quote, less the last byte. *)
Lemma getMethod_no_comma (a m b : gostring) (x : ascii) :
  no_byte quote a = true -> no_byte quote m = true ->
  no_byte quote (b ++ [x]) = true -> no_byte comma_c (b ++ [x]) = true ->
  getMethod (a ++ quote :: m ++ quote :: b ++ [x]) = Return (m, b, None).
Proof.
  intros Ha Hm Hb Hb'.
  rewrite getMethod_eq, bytes_method by assumption.
  rewrite bytes_skip_all by auto.
  cbn [start end_ rest countQuote].
  set (text := a ++ quote :: m ++ quote :: b ++ [x]).
  assert (Hl : len text = len a + 1 + len m + 1 + len b + 1).
  { unfold text. autorewrite with len. lia. }
  rewrite Hl. len_facts. cbn [orb]. len_ltb. cbn [orb].
  rewrite (slice_at text (a ++ [quote]) m (quote :: b ++ [x]))
    by (unfold text; autorewrite with len; solve [list_eq | lia]).
  cbn [bind].
  rewrite (slice_at text (a ++ quote :: m ++ [quote]) b [x])
    by (unfold text; autorewrite with len; solve [list_eq | lia]).
  reflexivity.
Qed.

(** A third quote before any comma that follows the closing quote. *)
Lemma getMethod_third_quote (a m b c : gostring) :
  no_byte quote a = true -> no_byte quote m = true ->
  no_byte quote b = true -> no_byte comma_c b = true ->
  getMethod (a ++ quote :: m ++ quote :: b ++ quote :: c)
  = Return ([], [], Some ErrorWrongPacket).
Proof.
  intros Ha Hm Hb Hb'.
  rewrite getMethod_eq, bytes_method by assumption.
  rewrite bytes_skip by auto.
  rewrite bytes_quote. reflexivity.
Qed.

(** One quote only. *)
Lemma getMethod_one_quote (a b : gostring) :
  no_byte quote a = true -> no_byte quote b = true ->
  getMethod (a ++ quote :: b) = Return ([], [], Some ErrorWrongPacket).
Proof.
  intros Ha Hb.
  rewrite getMethod_eq.
  rewrite bytes_skip by (auto; left; simpl; lia).
  rewrite bytes_quote. cbn [on_quote countQuote Z.eqb start end_ rest].
  rewrite bytes_skip_all by (auto; left; simpl; lia).
  cbn [start end_ rest countQuote].
  len_facts. destruct (Z.ltb_spec 0 (0 + len a + 1)); [reflexivity | lia].
Qed.

(** Nothing after the closing quote, or nothing after the separating
    comma. *)
Lemma getMethod_nothing_after (a m b : gostring) :
  no_byte quote a = true -> no_byte quote m = true ->
  no_byte quote b = true -> no_byte comma_c b = true ->
  getMethod (a ++ quote :: m ++ [quote]) = Return ([], [], Some ErrorWrongPacket)
  /\ getMethod (a ++ quote :: m ++ quote :: b ++ [comma_c])
     = Return ([], [], Some ErrorWrongPacket).
Proof.
  intros Ha Hm Hb Hb'. split.
  - rewrite getMethod_eq, bytes_method by assumption.
    cbn [getMethod_bytes start end_ rest countQuote].
    autorewrite with len. len_facts. len_ltb; cbn [orb]; reflexivity.
  - rewrite getMethod_eq, bytes_method by assumption.
    rewrite bytes_skip by auto.
    rewrite bytes_comma by (simpl; lia).
    cbn [start end_ rest countQuote].
    autorewrite with len. len_facts. len_ltb; cbn [orb]; reflexivity.
Qed.

Lemma getMethod_nil : getMethod [] = Return ([], [], Some ErrorWrongPacket).
Proof. reflexivity. Qed.

(** No quote at all in a text that is not empty: the method is empty and
    the arguments are the text less its last byte. *)
Lemma getMethod_no_quote (b : gostring) (x : ascii) :
  no_byte quote (b ++ [x]) = true ->
  getMethod (b ++ [x]) = Return ([], b, None).
Proof.
  intros Hb.
  rewrite getMethod_eq.
  rewrite bytes_skip_all by (auto; left; simpl; lia).
  cbn [start end_ rest countQuote].
  autorewrite with len. len_facts. len_ltb. cbn [orb].
  rewrite (slice_at (b ++ [x]) [] [] (b ++ [x])) by reflexivity.
  cbn [bind].
  rewrite (slice_at (b ++ [x]) [] b [x])
    by (autorewrite with len; solve [reflexivity | lia]).
  reflexivity.
Qed.

(** The variables of the loop stay within the text read so far. *)
Lemma getMethod_bytes_bounds (text : gostring) :
  forall (i : Z) (v : methodVars),
    0 <= i ->
    0 <= start v -> 0 <= end_ v <= i -> 0 <= rest v <= i ->
    match getMethod_bytes i text v with
    | Finished v' =>
      0 <= start v' /\ 0 <= end_ v' <= i + len text
      /\ 0 <= rest v' <= i + len text
    | Returned r => r = ([], [], Some ErrorWrongPacket)
    end.
Proof.
  induction text as [|c t IH]; intros i v Hi Hs He Hr.
  - cbn [getMethod_bytes]. rewrite len_nil. lia.
  - cbn [getMethod_bytes]. rewrite len_cons. pose proof (len_nonneg t) as Ht.
    unfold getMethod_body.
    assert (Hk : forall v', 0 <= start v' -> 0 <= end_ v' <= i + 1 ->
                   0 <= rest v' <= i + 1 ->
                   match getMethod_bytes (i + 1) t v' with
                   | Finished v'' =>
                     0 <= start v'' /\ 0 <= end_ v'' <= i + (1 + len t)
                     /\ 0 <= rest v'' <= i + (1 + len t)
                   | Returned r => r = ([], [], Some ErrorWrongPacket)
                   end).
    { intros v' H1 H2 H3.
      specialize (IH (i + 1) v' ltac:(lia) H1 H2 H3).
      destruct (getMethod_bytes (i + 1) t v'); [lia | exact IH]. }
    destruct (byteval c =? byteval quote).
    + unfold on_quote.
      destruct (countQuote v =? 0);
        [|destruct (countQuote v =? 1); [|reflexivity]];
        cbn [countQuote start end_ rest];
        (destruct (byteval c =? byteval comma_c);
         [destruct (_ <? 2)|];
         try apply Hk; cbn [start end_ rest countQuote]; lia).
    + destruct (byteval c =? byteval comma_c);
        [destruct (_ <? 2)|];
        try apply Hk; cbn [start end_ rest countQuote]; lia.
Qed.

(** [getMethod] never panics, and its only error is [ErrorWrongPacket]. *)
Lemma getMethod_total (text : gostring) :
  exists m r e, getMethod text = Return (m, r, e)
    /\ (e = None \/ e = Some ErrorWrongPacket).
Proof.
  rewrite getMethod_eq.
  pose proof (getMethod_bytes_bounds text 0 (mkVars 0 0 0 0)
                ltac:(lia) ltac:(simpl; lia) ltac:(simpl; lia) ltac:(simpl; lia))
    as H.
  destruct (getMethod_bytes 0 text (mkVars 0 0 0 0)) as [v|r].
  - rewrite Z.add_0_l in H. destruct H as (Hs & He & Hr).
    destruct (Z.ltb_spec (end_ v) (start v)); cbn [orb]; [eauto 6|].
    destruct (Z.leb_spec (len text) (rest v)); [eauto 6|].
    rewrite slice_ok by lia. cbn [bind].
    rewrite slice_ok by lia. cbn [bind]. eauto 6.
  - subst r. eauto 6.
Qed.

(** ** [Decode], class by class *)

Lemma Decode_unclassified (data : gostring) :
  classified data = false ->
  Decode data = Return (None, Some ErrorWrongMessageType).
Proof.
  intros H. unfold Decode.
  destruct (getMessageType_total data) as (t & r & e & -> & [->| ->] & Hc).
  - destruct Hc as [Hc _]. rewrite Hc in H by reflexivity. discriminate.
  - reflexivity.
Qed.

Lemma Decode_open (t : gostring) :
  Decode (open ++ t) =
  ' (ns, rest) <- getNamespace t ;;
  Return (Some (mkMessage MessageTypeOpen ns 0 [] rest (open ++ t)), None).
Proof.
  unfold Decode, open. cbn [str list_ascii_of_string app].
  rewrite getMessageType_cons. cbn [Ascii.eqb Bool.eqb bind].
  destruct (getNamespace t) as [[ns rest]|p]; reflexivity.
Qed.

(** The kinds that end after the namespace. *)
Lemma Decode_terminal (t : gostring) :
  forall p k,
    In (p, k) terminal_kinds ->
    Decode (p ++ t) =
    ' (ns, _) <- getNamespace t ;;
    Return (Some (mkMessage k ns 0 [] [] (p ++ t)), None).
Proof.
  intros p k H. simpl in H.
  destruct H as [H|[H|[H|[H|[]]]]]; injection H as <- <-;
    unfold Decode, CloseMessage, PingMessage, PongMessage, emptyMessage;
    cbn [str list_ascii_of_string app];
    rewrite getMessageType_cons; cbn [Ascii.eqb Bool.eqb bind];
    destruct (getNamespace t) as [[ns rest]|p]; reflexivity.
Qed.

(** The class of [42]: an [AckRequest] when [getAck] succeeds on the text
    after the namespace, an [Emit] read from [data[2:]] otherwise. *)
Lemma Decode_common (t : gostring) :
  Decode (commonMessage ++ t) =
  ' (ns, rest) <- getNamespace t ;;
  ' (ack, body, err) <- getAck rest ;;
  match err with
  | None =>
    ' (method, args, err) <- getMethod body ;;
    match err with
    | Some e => Return (None, Some e)
    | None =>
      Return (Some (mkMessage MessageTypeAckRequest ns ack method args
                              (commonMessage ++ t)), None)
    end
  | Some _ =>
    ' (method, args, err) <- getMethod t ;;
    match err with
    | Some e => Return (None, Some e)
    | None =>
      Return (Some (mkMessage MessageTypeEmit ns ack method args
                              (commonMessage ++ t)), None)
    end
  end.
Proof.
  unfold Decode, commonMessage. cbn [str list_ascii_of_string app].
  rewrite getMessageType_cons. cbn [Ascii.eqb Bool.eqb bind].
  destruct (getNamespace t) as [[ns rest]|p]; [|reflexivity].
  cbn -[getAck getMethod slice_from].
  destruct (getAck rest) as [[[ack body] [e|]]|p]; [| |reflexivity].
  - cbn -[getMethod slice_from]. rewrite slice_from_2. cbn -[getMethod].
    destruct (getMethod t) as [[[method args] [e'|]]|p]; reflexivity.
  - cbn -[getMethod].
    destruct (getMethod body) as [[[method args] [e'|]]|p]; reflexivity.
Qed.

(** The class of [43]. *)
Lemma Decode_ack (t : gostring) :
  Decode (ackMessage ++ t) =
  ' (ns, rest) <- getNamespace t ;;
  ' (ack, body, err) <- getAck rest ;;
  match err with
  | Some e => Return (None, Some e)
  | None =>
    a <- slice body 1 (len body - 1) ;;
    Return (Some (mkMessage MessageTypeAckResponse ns ack [] a
                            (ackMessage ++ t)), None)
  end.
Proof.
  unfold Decode, ackMessage. cbn [str list_ascii_of_string app].
  rewrite getMessageType_cons. cbn [Ascii.eqb Bool.eqb bind].
  destruct (getNamespace t) as [[ns rest]|p]; [|reflexivity].
  cbn -[getAck slice len].
  destruct (getAck rest) as [[[ack body] [e|]]|p]; [reflexivity| |reflexivity].
  cbn -[slice len].
  destruct (slice body 1 (len body - 1)); reflexivity.
Qed.

Lemma has_prefix_split (p data : gostring) :
  has_prefix p data = true -> exists t, data = p ++ t.
Proof.
  unfold has_prefix. intros H.
  destruct (streq_spec (firstn (List.length p) data) p) as [E|]; [|discriminate].
  exists (skipn (List.length p) data).
  rewrite <- E at 1. symmetry. apply firstn_skipn.
Qed.

Lemma classified_split (data : gostring) :
  classified data = true -> exists p t, In p prefixes /\ data = p ++ t.
Proof.
  unfold classified. intros H.
  apply existsb_exists in H as (p & Hp & H).
  destruct (has_prefix_split _ _ H) as [t ->]. eauto.
Qed.

Lemma classified_prefix (p t : gostring) :
  In p prefixes -> classified (p ++ t) = true.
Proof.
  intros H. unfold classified. apply existsb_exists. exists p. split; [exact H|].
  unfold has_prefix. rewrite firstn_app, firstn_all, Nat.sub_diag.
  cbn [firstn]. rewrite app_nil_r. apply streq_refl.
Qed.

(** Every way [Decode] can end: with a message; with one of the three
    errors, [ErrorWrongMessageType] being that of the unclassified texts;
    or with a panic, on an [AckResponse] whose text after the ack id is the
    opening bracket alone. *)
Lemma Decode_outcomes (data : gostring) :
  (exists m, Decode data = Return (Some m, None))
  \/ (exists e, Decode data = Return (None, Some e)
      /\ ((e = ErrorWrongMessageType /\ classified data = false)
          \/ (classified data = true
              /\ (e = ErrorWrongPacket
                  \/ exists num k, e = NumError strconv.fnAtoi num k))))
  \/ (exists t ns rest ack,
        data = ackMessage ++ t /\ getNamespace t = Return (ns, rest)
        /\ getAck rest = Return (ack, [lbracket], None)
        /\ Decode data = Panic (SliceBoundsOutOfRange 1 0 1)).
Proof.
  destruct (classified data) eqn:Hc.
  2:{ right; left. exists ErrorWrongMessageType.
      split; [now apply Decode_unclassified | now left]. }
  destruct (classified_split _ Hc) as (p & t & Hp & ->).
  destruct (getNamespace_total t) as (ns & rest & Hns).
  assert (Hterm : forall k,
             In (p, k) terminal_kinds ->
             exists m, Decode (p ++ t) = Return (Some m, None)).
  { intros k Hk. rewrite (Decode_terminal t p k Hk), Hns. cbn [bind]. eauto. }
  simpl in Hp.
  destruct Hp as [<-|[<-|[<-|[<-|[<-|[<-|[<-|[]]]]]]]].
  - left. rewrite Decode_open, Hns. cbn [bind]. eauto.
  - left. apply (Hterm MessageTypeClose). simpl; auto.
  - left. apply (Hterm MessageTypePing). simpl; auto.
  - left. apply (Hterm MessageTypePong). simpl; auto 6.
  - left. apply (Hterm MessageTypeEmpty). simpl; auto 6.
  - rewrite Decode_common, Hns. cbn [bind].
    destruct (getAck_cases rest) as [(e & -> & _)|(a & r & ack & _ & _ & _ & ->)];
      cbn [bind].
    + destruct (getMethod_total t) as (m & r & e' & -> & [->| ->]); cbn [bind];
        [left; eauto | right; left; eexists; split; [reflexivity|]; right; auto].
    + destruct (getMethod_total (lbracket :: r)) as (m & r' & e' & -> & [->| ->]);
        cbn [bind];
        [left; eauto | right; left; eexists; split; [reflexivity|]; right; auto].
  - rewrite Decode_ack, Hns. cbn [bind].
    destruct (getAck_cases rest) as [(e & Hg & He)|(a & r & ack & _ & _ & _ & Hg)].
    + rewrite Hg. cbn [bind]. right; left. exists e. split; [reflexivity|].
      right. split; [reflexivity|]. exact He.
    + rewrite Hg. cbn [bind]. destruct r as [|x r].
      * right; right. exists t, ns, rest, ack. repeat split; assumption.
      * left. rewrite len_cons, len_cons. pose proof (len_nonneg r).
        rewrite slice_ok by (rewrite ?len_cons; lia). cbn [bind]. eauto.
Qed.


(** What [Atoi] accepts: an optional sign and at least one digit, for a
    value that is an [int]. *)
Lemma parseDigits_accepts (s : gostring) :
  forall n un : Z,
    0 <= n -> strconv.parseDigits s n = inl un ->
    0 <= un /\ forallb is_digit s = true.
Proof.
  induction s as [|c s IH]; intros n un Hn H.
  - injection H as <-. split; [exact Hn | reflexivity].
  - cbn [strconv.parseDigits] in H. cbn [forallb]. unfold is_digit at 1.
    destruct ((48 <=? byteval c) && (byteval c <=? 57)) eqn:Hd; [|discriminate].
    destruct (_ <=? n); [discriminate|].
    destruct (_ <? _); [discriminate|].
    apply andb_prop in Hd as [Hd _]. apply Z.leb_le in Hd.
    apply IH in H; [exact H | lia].
Qed.

Lemma Atoi_accepts (p : gostring) (ack : Z) :
  strconv.Atoi p = (ack, None) ->
  exists sign ds,
    p = sign ++ ds /\ In sign [[]; ["+"%char]; ["-"%char]]
    /\ ds <> [] /\ forallb is_digit ds = true /\ is_int ack = true.
Proof.
  unfold strconv.Atoi. intros H.
  destruct p as [|c t]; [discriminate|].
  set (neg := Ascii.eqb c "-") in *.
  set (body := if (Ascii.eqb c "+" || neg)%bool then t else c :: t) in *.
  assert (Hsplit : exists sign, c :: t = sign ++ body
                     /\ In sign [[]; ["+"%char]; ["-"%char]]).
  { unfold body, neg.
    destruct (Ascii.eqb_spec c "+") as [->|_];
      [exists ["+"%char]; simpl; auto|].
    destruct (Ascii.eqb_spec c "-") as [->|_];
      [exists ["-"%char]; simpl; auto|].
    exists []; simpl; auto. }
  destruct Hsplit as (sign & Hs & Hin).
  destruct body as [|d ds] eqn:Hb; [discriminate|].
  destruct (strconv.parseDigits (d :: ds) 0) as [un|[|]] eqn:Hp;
    [|discriminate | destruct neg; discriminate].
  destruct (parseDigits_accepts _ _ _ (Z.le_refl 0) Hp) as [Hun Hd].
  change (2 ^ (strconv.IntSize - 1)) with 9223372036854775808 in H.
  exists sign, (d :: ds). repeat split; auto; [discriminate|].
  unfold is_int.
  change (2 ^ (strconv.IntSize - 1)) with 9223372036854775808.
  destruct neg; cbn [negb andb] in H.
  - destruct (Z.ltb_spec 9223372036854775808 un); [discriminate|].
    injection H as <-.
    apply andb_true_intro. split; [apply Z.leb_le | apply Z.ltb_lt]; lia.
  - destruct (Z.leb_spec 9223372036854775808 un); [discriminate|].
    injection H as <-.
    apply andb_true_intro. split; [apply Z.leb_le | apply Z.ltb_lt]; lia.
Qed.


(** ** [Encode] *)

(** [Encode] writes the wire grammar. *)
Lemma Encode_wire (m : Message) (w : gostring) :
  wire_grammar m = Some w -> Encode m = (w, None).
Proof.
  destruct m as [t ns ack method args src]. unfold wire_grammar.
  cbn [Type_ Namespace AckId Method Args].
  repeat match goal with
         | |- context [t =? ?k] =>
           destruct (Z.eqb_spec t k) as [->|?];
             [intros [= <-]; unfold Encode, separator, json.Marshal;
              destruct ns; cbn -[strconv.Itoa json.appendString];
              unfold json.appendString; list_eq|]
         end.
  discriminate.
Qed.

(** ** Reading back what [Encode] writes *)

Lemma namespace_ok_cases (ns : gostring) :
  namespace_ok ns = true ->
  ns = [] \/ (ns <> [] /\ has_prefix [slash] ns = true
              /\ no_byte comma_c ns = true).
Proof.
  unfold namespace_ok. destruct ns as [|c ns]; [now left|].
  cbn [streq orb]. intros H. apply andb_prop in H as [H1 H2].
  right. repeat split; auto. discriminate.
Qed.

(** The namespace and its comma are stripped from what follows them. *)
Lemma getNamespace_encoded (ns r : gostring) :
  namespace_ok ns = true ->
  (ns = [] -> has_prefix [slash] r = false) ->
  getNamespace (ns ++ separator ns ++ r) = Return (ns, r).
Proof.
  intros Hns Hr.
  destruct (namespace_ok_cases ns Hns) as [->|(Hne & Hs & Hc)].
  - cbn [separator streq app]. apply getNamespace_none, Hr. reflexivity.
  - unfold separator. destruct ns as [|c ns]; [contradiction|].
    cbn [streq]. cbn [app]. apply (getNamespace_comma (c :: ns) r Hs Hc).
Qed.

Lemma getNamespace_only (ns : gostring) :
  namespace_ok ns = true -> getNamespace ns = Return (ns, []).
Proof.
  intros Hns.
  destruct (namespace_ok_cases ns Hns) as [->|(Hne & Hs & Hc)];
    [reflexivity | now apply getNamespace_alone].
Qed.

(** The ack id written by [Itoa] is read back. *)
Lemma getAck_Itoa (i : Z) (r : gostring) :
  is_int i = true ->
  getAck (strconv.Itoa i ++ lbracket :: r) = Return (i, lbracket :: r, None).
Proof.
  intros Hi.
  rewrite getAck_bracket by (apply Itoa_no_byte; reflexivity).
  rewrite Atoi_Itoa by exact Hi. reflexivity.
Qed.

(** No ack id right before the bracket. *)
Lemma getAck_none (r : gostring) :
  getAck (lbracket :: r)
  = Return (0, [], Some (NumError strconv.fnAtoi [] ErrSyntax)).
Proof. exact (getAck_bracket [] r eq_refl). Qed.

(** [Decode] on the class of [42], through [common_head]. *)
Lemma Decode_common_head (t : gostring) :
  Decode (commonMessage ++ t) =
  ' (k, ns, ack, body) <- common_head t ;;
  ' (method, args, err) <- getMethod body ;;
  match err with
  | Some e => Return (None, Some e)
  | None =>
    Return (Some (mkMessage k ns ack method args (commonMessage ++ t)), None)
  end.
Proof.
  rewrite Decode_common. unfold common_head.
  destruct (getNamespace t) as [[ns rest]|]; [|reflexivity]. cbn [bind].
  destruct (getAck rest) as [[[ack body] [e|]]|]; reflexivity.
Qed.

(** ** The codec on some texts *)

Example Decode_ping :
  Decode (str "2")
  = Return (Some (mkMessage MessageTypePing [] 0 [] [] (str "2")), None).
Proof. reflexivity. Qed.

Example Decode_open_namespace :
  Decode (str "0/chat,{}")
  = Return (Some (mkMessage MessageTypeOpen (str "/chat") 0 [] (str "{}")
                            (str "0/chat,{}")), None).
Proof. vm_compute. reflexivity. Qed.

Example Encode_emit :
  Encode (mkMessage MessageTypeEmit [] 0 (str "foo") (str "[1,2]") [])
  = (str "42[" ++ quoted (str "foo") ++ str ",[1,2]]", None).
Proof. vm_compute. reflexivity. Qed.

Example Decode_emit :
  Decode (str "42[" ++ quoted (str "foo") ++ str ",[1,2]]")
  = Return (Some (mkMessage MessageTypeEmit [] 0 (str "foo") (str "[1,2]")
                            (str "42[" ++ quoted (str "foo") ++ str ",[1,2]]")),
            None).
Proof. vm_compute. reflexivity. Qed.

(** An ack id and then the opening bracket alone: the body holds no quote,
    and [getMethod] accepts it with an empty method. *)
Example Decode_ack_request_bracket_alone :
  Decode (str "421[")
  = Return (Some (mkMessage MessageTypeAckRequest [] 1 [] [] (str "421[")), None).
Proof. vm_compute. reflexivity. Qed.

Example MustEncode_panics :
  MustEncode (mkMessage 8 [] 0 [] [] [])
  = Panic (PanicError ErrorWrongMessageType).
Proof. reflexivity. Qed.

(* ================================================================= *)
(** * The claims *)

(** ** C1: the outcomes of [Decode] *)

(** C1 (code defect).  The claim is that [Decode] always ends with a message
    or with one of its three errors and never with a run-time abort.  On
    the text [431[] it does abort: the kind is AckResponse, the ack id 1
    parses, the text left is the opening bracket alone, and the slice
    [rest[1 : len(rest)-1]] has bounds 1 and 0.  ([Decode_outcomes] shows
    that this is the only way [Decode] aborts.) *)
Theorem C1_Decode_panics_on_truncated_ack_response :
  Decode (str "431[") = Panic (SliceBoundsOutOfRange 1 0 1).
Proof. vm_compute. reflexivity. Qed.

(** ** C8: [Encode] on a kind it does not know *)

(** C8.  For every message whose kind is none of the eight kinds, [Encode]
    fails with [ErrorWrongMessageType] and the string it returns is
    empty. *)
Theorem C8_Encode_unrecognized_kind (m : Message) :
  recognized (Type_ m) = false ->
  Encode m = ([], Some ErrorWrongMessageType).
Proof.
  unfold recognized. cbn [existsb]. intros H.
  repeat (apply orb_false_elim in H as [?E H]).
  unfold Encode, typeToText.
  repeat match goal with
         | E : (Type_ m =? _) = false |- _ => rewrite E; clear E
         end.
  reflexivity.
Qed.

Lemma C8_Encode_unrecognized_kind_witness :
  recognized 8 = false
  /\ Encode (mkMessage 8 (str "/chat") 1 (str "foo") (str "[1]") [])
     = ([], Some ErrorWrongMessageType).
Proof.
  split; [reflexivity|].
  apply (C8_Encode_unrecognized_kind
           (mkMessage 8 (str "/chat") 1 (str "foo") (str "[1]") [])).
  reflexivity.
Defined.

(** ** C9: [ErrorWrongMessageType] *)

(** C9.  [Decode] fails with [ErrorWrongMessageType] exactly when the text
    starts with no prefix of the kind/prefix table; the empty text and the
    text [4] are two such texts. *)
Theorem C9_Decode_wrong_message_type (data : gostring) :
  Decode data = Return (None, Some ErrorWrongMessageType)
  <-> classified data = false.
Proof.
  split; [|apply Decode_unclassified].
  intros H.
  destruct (Decode_outcomes data)
    as [(m & E)|[(e & E & [[_ Hc]|[_ He]])|(t & ns & rest & ack & _ & _ & _ & E)]];
    rewrite E in H; try discriminate; [exact Hc|].
  injection H as ->. destruct He as [He|(num & k & He)]; discriminate.
Qed.

Lemma C9_Decode_wrong_message_type_witness :
  Decode [] = Return (None, Some ErrorWrongMessageType)
  /\ Decode (str "4") = Return (None, Some ErrorWrongMessageType)
  /\ Decode (str "5[]") = Return (None, Some ErrorWrongMessageType)
  /\ Decode (str "41") = Return (None, Some ErrorWrongMessageType)
  /\ classified (str "2") = true.
Proof.
  refine (conj _ (conj _ (conj _ (conj _ _)))).
  - apply (proj2 (C9_Decode_wrong_message_type [])). reflexivity.
  - apply (proj2 (C9_Decode_wrong_message_type (str "4"))). reflexivity.
  - apply (proj2 (C9_Decode_wrong_message_type (str "5[]"))). reflexivity.
  - apply (proj2 (C9_Decode_wrong_message_type (str "41"))). reflexivity.
  - destruct (classified (str "2")) eqn:E; [reflexivity|].
    apply (proj2 (C9_Decode_wrong_message_type (str "2"))) in E.
    discriminate E.
Defined.

(** ** C10: the kinds that end after the namespace *)



(** ** C6: AckResponse *)

(** C6.  For a text of the class of [43] the ack id is mandatory: an error
    of [getAck] is the error of [Decode].  When [getAck] succeeds the
    arguments are the text from the bracket on with its first and its last
    byte removed, so that a text [[args]] gives [args]. *)
Theorem C6_Decode_ack_response (t ns rest : gostring) :
  getNamespace t = Return (ns, rest) ->
  (forall a b e,
      getAck rest = Return (a, b, Some e) ->
      Decode (ackMessage ++ t) = Return (None, Some e))
  /\ (forall ack args,
         getAck rest = Return (ack, lbracket :: args ++ [rbracket], None) ->
         Decode (ackMessage ++ t)
         = Return (Some (mkMessage MessageTypeAckResponse ns ack [] args
                                   (ackMessage ++ t)), None))
  /\ (forall ack body m,
         getAck rest = Return (ack, body, None) ->
         Decode (ackMessage ++ t) = Return (Some m, None) ->
         Type_ m = MessageTypeAckResponse /\ AckId m = ack
         /\ exists x, body = lbracket :: Args m ++ [x]).
Proof.
  intros Hns. rewrite Decode_ack, Hns. cbn [bind].
  split; [|split].
  - intros a b e ->. reflexivity.
  - intros ack args ->. cbn [bind].
    rewrite (slice_at _ [lbracket] args [rbracket])
      by (autorewrite with len; solve [reflexivity | lia]).
    reflexivity.
  - intros ack body m Hg. rewrite Hg. cbn [bind].
    destruct (getAck_cases rest)
      as [(e & He & _)|(p & r & ack' & _ & _ & _ & Hg')];
      [rewrite He in Hg; discriminate|].
    rewrite Hg in Hg'. injection Hg' as _ ->.
    destruct (slice (lbracket :: r) 1 (len (lbracket :: r) - 1)) as [a|]
      eqn:Hs; [|discriminate].
    cbn [bind]. intros [= <-]. cbn [Type_ AckId Args].
    repeat split.
    apply slice_inv in Hs as (pre & c & Heq & Hl1 & Hl2).
    destruct pre as [|y [|z pre]];
      [rewrite len_nil in Hl1; lia | |
       rewrite !len_cons in Hl1; pose proof (len_nonneg pre); lia].
    cbn [app] in Heq. injection Heq as <- ->.
    autorewrite with len in Hl2.
    destruct c as [|x [|x' c]]; autorewrite with len in Hl2.
    + lia.
    + exists x. reflexivity.
    + pose proof (len_nonneg c). lia.
Qed.

Lemma C6_Decode_ack_response_witness :
  Decode (str "431[" ++ quoted (str "bar") ++ str "]")
  = Return (Some (mkMessage MessageTypeAckResponse [] 1 [] (quoted (str "bar"))
                            (str "431[" ++ quoted (str "bar") ++ str "]")), None)
  /\ Decode (str "43[" ++ quoted (str "bar") ++ str "]")
     = Return (None, Some (NumError strconv.fnAtoi [] ErrSyntax)).
Proof.
  split.
  - apply (proj1 (proj2 (C6_Decode_ack_response
                           (str "1[" ++ quoted (str "bar") ++ str "]") []
                           (str "1[" ++ quoted (str "bar") ++ str "]")
                           eq_refl)) 1 (quoted (str "bar"))).
    reflexivity.
  - apply (proj1 (C6_Decode_ack_response
                    (str "[" ++ quoted (str "bar") ++ str "]") []
                    (str "[" ++ quoted (str "bar") ++ str "]")
                    eq_refl) 0 []).
    reflexivity.
Defined.

(** ** C4: the ack id *)

(** C4 (counterexample).  A negative number in the place of the ack id is
    accepted: [getAck] returns -5, and [Decode] returns an AckResponse whose
    ack id is -5. *)
Lemma C4_negative_ack_id_accepted :
  getAck (str "-5[]") = Return (-5, str "[]", None)
  /\ Decode (str "43-5[" ++ quoted (str "bar") ++ str "]")
     = Return (Some (mkMessage MessageTypeAckResponse [] (-5) []
                               (quoted (str "bar"))
                               (str "43-5[" ++ quoted (str "bar") ++ str "]")),
               None).
Proof. split; vm_compute; reflexivity. Qed.

(** C4 (amended).  [getAck] accepts a text exactly when the part before its
    first opening bracket is accepted by [Atoi], and then returns the value
    of [Atoi] and the text from the bracket on.  [Atoi] accepts an optional
    sign followed by at least one decimal digit, for a value that is an
    [int]; so the decimal form of every [int], the negative ones included,
    is accepted as an ack id. *)
Theorem C4_getAck_accepts_signed_integers :
  (forall text ack rest,
      getAck text = Return (ack, rest, None)
      <-> exists p r, text = p ++ lbracket :: r /\ no_byte lbracket p = true
                      /\ strconv.Atoi p = (ack, None) /\ rest = lbracket :: r)
  /\ (forall p ack,
         strconv.Atoi p = (ack, None) ->
         exists sign ds,
           p = sign ++ ds /\ In sign [[]; ["+"%char]; ["-"%char]]
           /\ ds <> [] /\ forallb is_digit ds = true /\ is_int ack = true)
  /\ (forall i r,
         is_int i = true ->
         getAck (strconv.Itoa i ++ lbracket :: r) = Return (i, lbracket :: r, None)).
Proof.
  split; [|split].
  - intros text ack rest. split.
    + intros H.
      destruct (getAck_cases text)
        as [(e & He & _)|(p & r & ack' & Ht & Hp & Ha & Hg)];
        [rewrite He in H; discriminate|].
      rewrite Hg in H. injection H as <- <-. exists p, r. auto.
    + intros (p & r & -> & Hp & Ha & ->).
      rewrite getAck_bracket, Ha by exact Hp. reflexivity.
  - apply Atoi_accepts.
  - apply getAck_Itoa.
Qed.

Lemma C4_getAck_accepts_signed_integers_witness :
  is_int (-5) = true
  /\ getAck (strconv.Itoa (-5) ++ lbracket :: str "x]")
     = Return (-5, lbracket :: str "x]", None)
  /\ is_int (-5) = true.
Proof.
  split; [reflexivity|]. split.
  - apply (proj2 (proj2 C4_getAck_accepts_signed_integers) (-5) (str "x]")).
    reflexivity.
  - destruct (proj1 (proj2 C4_getAck_accepts_signed_integers)
                (str "-5") (-5) eq_refl)
      as (sign & ds & _ & _ & _ & _ & H).
    exact H.
Defined.

(** ** C5: AckRequest or Emit *)

(** C5.  For every text of the class of [42], with the namespace stripped
    first: when [getAck] succeeds on what follows the namespace the message
    is an AckRequest and the method and the arguments are read from the text
    after the ack id; when [getAck] fails the message is an Emit with ack id
    0 and the method and the arguments are read from [data[2:]], the whole
    text after the two bytes of the prefix, namespace included. *)
Theorem C5_Decode_common_class (t ns rest : gostring) :
  getNamespace t = Return (ns, rest) ->
  (forall ack body,
      getAck rest = Return (ack, body, None) ->
      Decode (commonMessage ++ t) =
      ' (method, args, err) <- getMethod body ;;
      match err with
      | Some e => Return (None, Some e)
      | None =>
        Return (Some (mkMessage MessageTypeAckRequest ns ack method args
                                (commonMessage ++ t)), None)
      end)
  /\ (forall a b e,
         getAck rest = Return (a, b, Some e) ->
         slice_from (commonMessage ++ t) 2 = Return t
         /\ Decode (commonMessage ++ t) =
            ' (method, args, err) <- getMethod t ;;
            match err with
            | Some e => Return (None, Some e)
            | None =>
              Return (Some (mkMessage MessageTypeEmit ns 0 method args
                                      (commonMessage ++ t)), None)
            end)
  /\ (forall m,
         Decode (commonMessage ++ t) = Return (Some m, None) ->
         (Type_ m = MessageTypeAckRequest
          /\ exists body, getAck rest = Return (AckId m, body, None))
         \/ (Type_ m = MessageTypeEmit /\ AckId m = 0
             /\ exists e, getAck rest = Return (0, [], Some e))).
Proof.
  intros Hns. rewrite Decode_common, Hns. cbn [bind].
  split; [|split].
  - intros ack body ->. reflexivity.
  - intros a b e Hg. split; [apply slice_from_2|].
    destruct (getAck_cases rest)
      as [(e' & He & _)|(p & r & ack' & _ & _ & _ & Hg')];
      [|rewrite Hg in Hg'; discriminate].
    rewrite He. reflexivity.
  - intros m.
    destruct (getAck_cases rest)
      as [(e' & He & _)|(p & r & ack' & _ & _ & _ & Hg')].
    + rewrite He. cbn [bind].
      destruct (getMethod t) as [[[method args] [e|]]|]; cbn [bind];
        try discriminate.
      intros [= <-]. right. cbn [Type_ AckId]. eauto.
    + rewrite Hg'. cbn [bind].
      destruct (getMethod (lbracket :: r)) as [[[method args] [e|]]|];
        cbn [bind]; try discriminate.
      intros [= <-]. left. cbn [Type_ AckId]. eauto.
Qed.

Lemma C5_Decode_common_class_witness :
  Decode (str "42/chat,[" ++ quoted (str "foo") ++ str ",[1,2]]")
  = Return (Some (mkMessage MessageTypeEmit (str "/chat") 0
                            (str "foo") (str "[1,2]")
                            (str "42/chat,[" ++ quoted (str "foo") ++ str ",[1,2]]")),
            None)
  /\ Decode (str "42/chat,7[" ++ quoted (str "foo") ++ str ",[1,2]]")
     = Return (Some (mkMessage MessageTypeAckRequest (str "/chat") 7
                               (str "foo") (str "[1,2]")
                               (str "42/chat,7[" ++ quoted (str "foo")
                                    ++ str ",[1,2]]")),
               None).
Proof.
  split.
  - destruct (proj1 (proj2 (C5_Decode_common_class
                 (str "/chat,[" ++ quoted (str "foo") ++ str ",[1,2]]")
                 (str "/chat") (str "[" ++ quoted (str "foo") ++ str ",[1,2]]")
                 eq_refl))
               0 [] (NumError strconv.fnAtoi [] ErrSyntax) eq_refl) as [_ H].
    exact H.
  - exact (proj1 (C5_Decode_common_class
                    (str "/chat,7[" ++ quoted (str "foo") ++ str ",[1,2]]")
                    (str "/chat") (str "7[" ++ quoted (str "foo") ++ str ",[1,2]]")
                    eq_refl)
                 7 (str "[" ++ quoted (str "foo") ++ str ",[1,2]]") eq_refl).
Defined.

(** ** C7: what [Encode] writes *)

(** C7 (counterexample).  A Close message with a namespace and no arguments
    is written with a comma after the namespace. *)
Lemma C7_Close_namespace_trailing_comma :
  Encode (mkMessage MessageTypeClose (str "/a") 0 [] [] []) = (str "1/a,", None)
  /\ str "1/a," <> CloseMessage ++ str "/a".
Proof. split; [vm_compute; reflexivity | discriminate]. Qed.

(** C7 (amended).  For every message of a recognized kind [Encode] writes
    the prefix, the namespace as it is, and then, for every kind but Ping,
    Pong and Empty, a comma when the namespace is not empty, whether or not
    anything follows, and the body of the kind; the arguments of Open and
    Close follow as they are, with no brackets.  So a Close message with a
    namespace and no arguments is the prefix, the namespace and a comma. *)
Theorem C7_Encode_wire_grammar :
  (forall m w, wire_grammar m = Some w -> Encode m = (w, None))
  /\ (forall ns ack method src,
         ns <> [] ->
         Encode (mkMessage MessageTypeClose ns ack method [] src)
         = (CloseMessage ++ ns ++ [comma_c], None)).
Proof.
  split; [exact Encode_wire|].
  intros ns ack method src Hns. apply Encode_wire.
  unfold wire_grammar, separator. cbn.
  destruct ns; [contradiction|]. cbn. rewrite ?app_nil_r. reflexivity.
Qed.

Lemma C7_Encode_wire_grammar_witness :
  Encode (mkMessage MessageTypeOpen (str "/chat") 0 [] (str "{}") [])
  = (str "0/chat,{}", None)
  /\ Encode (mkMessage MessageTypeClose (str "/chat") 0 [] [] [])
     = (str "1/chat,", None).
Proof.
  split.
  - apply (proj1 C7_Encode_wire_grammar). reflexivity.
  - apply (proj2 C7_Encode_wire_grammar (str "/chat") 0 [] []). discriminate.
Defined.

(** ** C3: the body of an Emit or an AckRequest *)

(** C3 (counterexample).  A body with no comma after the closing quote is
    accepted, and so is a body with no quote at all. *)
Lemma C3_missing_comma_accepted :
  Decode (str "42[" ++ quoted (str "foo") ++ str "]")
  = Return (Some (mkMessage MessageTypeEmit [] 0 (str "foo") []
                            (str "42[" ++ quoted (str "foo") ++ str "]")), None)
  /\ Decode (str "42[1,2]")
     = Return (Some (mkMessage MessageTypeEmit [] 0 [] (str "[1,2")
                               (str "42[1,2]")), None).
Proof. split; vm_compute; reflexivity. Qed.

(** C3 (amended).  Let [body] be the text that [Decode] hands to [getMethod]
    for a text of the class of [42].  [Decode] fails with [ErrorWrongPacket]
    when the body holds one quote only; when a third quote comes before any
    comma that follows the closing quote; when nothing follows the closing
    quote, or nothing follows the comma after it; and when the body is
    empty.  A body in which no comma follows the closing quote, but other
    text does, is accepted: the method is the text between the quotes and
    the arguments are the text after the closing quote less its last byte.
    With the comma, the arguments are the text after the comma less its
    last byte. *)
Theorem C3_Decode_method_body (t : gostring) (k : Z) (ns : gostring) (ack : Z)
    (body : gostring) :
  common_head t = Return (k, ns, ack, body) ->
  (forall a b,
      no_byte quote a = true -> no_byte quote b = true ->
      body = a ++ quote :: b ->
      Decode (commonMessage ++ t) = Return (None, Some ErrorWrongPacket))
  /\ (forall a m b c,
         no_byte quote a = true -> no_byte quote m = true ->
         no_byte quote b = true -> no_byte comma_c b = true ->
         body = a ++ quote :: m ++ quote :: b ++ quote :: c ->
         Decode (commonMessage ++ t) = Return (None, Some ErrorWrongPacket))
  /\ (forall a m b,
         no_byte quote a = true -> no_byte quote m = true ->
         no_byte quote b = true -> no_byte comma_c b = true ->
         body = a ++ quote :: m ++ [quote]
         \/ body = a ++ quote :: m ++ quote :: b ++ [comma_c] ->
         Decode (commonMessage ++ t) = Return (None, Some ErrorWrongPacket))
  /\ (body = [] ->
      Decode (commonMessage ++ t) = Return (None, Some ErrorWrongPacket))
  /\ (forall a m b x,
         no_byte quote a = true -> no_byte quote m = true ->
         no_byte quote (b ++ [x]) = true -> no_byte comma_c (b ++ [x]) = true ->
         body = a ++ quote :: m ++ quote :: b ++ [x] ->
         Decode (commonMessage ++ t)
         = Return (Some (mkMessage k ns ack m b (commonMessage ++ t)), None))
  /\ (forall a m b args x,
         no_byte quote a = true -> no_byte quote m = true ->
         no_byte quote b = true -> no_byte comma_c b = true ->
         body = a ++ quote :: m ++ quote :: b ++ comma_c :: args ++ [x] ->
         Decode (commonMessage ++ t)
         = Return (Some (mkMessage k ns ack m args (commonMessage ++ t)), None)).
Proof.
  intros Hh. rewrite Decode_common_head, Hh. cbn [bind].
  repeat split.
  - intros a b Ha Hb ->. now rewrite getMethod_one_quote.
  - intros a m b c Ha Hm Hb Hb' ->. now rewrite getMethod_third_quote.
  - intros a m b Ha Hm Hb Hb' [-> | ->];
      destruct (getMethod_nothing_after a m b Ha Hm Hb Hb') as [E1 E2];
      [now rewrite E1 | now rewrite E2].
  - intros ->. reflexivity.
  - intros a m b x Ha Hm Hb Hb' ->. now rewrite getMethod_no_comma.
  - intros a m b args x Ha Hm Hb Hb' ->. now rewrite getMethod_comma.
Qed.

Lemma C3_Decode_method_body_witness :
  Decode (str "42[" ++ quoted (str "foo") ++ str "x" ++ quoted (str "bar]"))
  = Return (None, Some ErrorWrongPacket)
  /\ Decode (str "42[" ++ quote :: str "foo,1]")
     = Return (None, Some ErrorWrongPacket)
  /\ Decode (str "425[" ++ quoted (str "foo"))
     = Return (None, Some ErrorWrongPacket)
  /\ Decode (str "42") = Return (None, Some ErrorWrongPacket)
  /\ Decode (str "42[" ++ quoted (str "foo") ++ str "]")
     = Return (Some (mkMessage MessageTypeEmit [] 0 (str "foo") []
                               (str "42[" ++ quoted (str "foo") ++ str "]")),
               None)
  /\ Decode (str "425[" ++ quoted (str "foo") ++ str ",[1,2]]")
     = Return (Some (mkMessage MessageTypeAckRequest [] 5 (str "foo") (str "[1,2]")
                               (str "425[" ++ quoted (str "foo") ++ str ",[1,2]]")),
               None).
Proof.
  refine (conj _ (conj _ (conj _ (conj _ (conj _ _))))).
  - apply (proj1 (proj2 (C3_Decode_method_body
                           (str "[" ++ quoted (str "foo") ++ str "x"
                                ++ quoted (str "bar]"))
                           MessageTypeEmit [] 0 _ eq_refl))
             (str "[") (str "foo") (str "x") (str "bar]" ++ [quote]));
      reflexivity.
  - apply (proj1 (C3_Decode_method_body
                    (str "[" ++ quote :: str "foo,1]")
                    MessageTypeEmit [] 0 _ eq_refl)
             (str "[") (str "foo,1]")); reflexivity.
  - apply (proj1 (proj2 (proj2 (C3_Decode_method_body
                                  (str "5[" ++ quoted (str "foo"))
                                  MessageTypeAckRequest [] 5 _ eq_refl)))
             (str "[") (str "foo") []); try reflexivity.
    left. reflexivity.
  - apply (proj1 (proj2 (proj2 (proj2 (C3_Decode_method_body
                                         [] MessageTypeEmit [] 0 _ eq_refl)))));
      reflexivity.
  - apply (proj1 (proj2 (proj2 (proj2 (proj2 (C3_Decode_method_body
                    (str "[" ++ quoted (str "foo") ++ str "]")
                    MessageTypeEmit [] 0 _ eq_refl)))))
             (str "[") (str "foo") [] "]"%char); reflexivity.
  - apply (proj2 (proj2 (proj2 (proj2 (proj2 (C3_Decode_method_body
                    (str "5[" ++ quoted (str "foo") ++ str ",[1,2]]")
                    MessageTypeAckRequest [] 5 _ eq_refl)))))
             (str "[") (str "foo") [] (str "[1,2]") "]"%char); reflexivity.
Defined.

(** ** C2: [Decode] after [Encode] *)

(** C2 (counterexample).  Messages whose arguments have the shape of their
    kind and which [Decode] does not read back from what [Encode] writes: a
    method name with a double quote in it ([Decode] fails); a method name
    with a backslash (it comes back escaped); a namespace with a comma (it
    comes back cut at the comma, and the AckRequest as an Emit); an Open
    message with no namespace whose arguments start with a slash (they come
    back as the namespace). *)
Lemma C2_round_trip_fails :
  Decode (fst (Encode (mkMessage MessageTypeEmit [] 0
                                 (str "a" ++ quote :: str "b") (str "1") [])))
  = Return (None, Some ErrorWrongPacket)
  /\ Decode (fst (Encode (mkMessage MessageTypeEmit [] 0 (str "a\b") (str "1") [])))
     = Return (Some (mkMessage MessageTypeEmit [] 0 (str "a\\b") (str "1")
                               (str "42[" ++ quoted (str "a\\b") ++ str ",1]")),
               None)
  /\ Decode (fst (Encode (mkMessage MessageTypeAckRequest (str "/a,b") 5
                                    (str "m") (str "1") [])))
     = Return (Some (mkMessage MessageTypeEmit (str "/a") 0 (str "m") (str "1")
                               (str "42/a,b,5[" ++ quoted (str "m") ++ str ",1]")),
               None)
  /\ Decode (fst (Encode (mkMessage MessageTypeOpen [] 0 [] (str "/x") [])))
     = Return (Some (mkMessage MessageTypeOpen (str "/x") 0 [] [] (str "0/x")),
               None).
Proof. repeat split; vm_compute; reflexivity. Qed.

(** C2 (amended).  For every well-formed message [Encode] succeeds and
    [Decode] of what it writes succeeds and returns the kind, the namespace,
    the ack id, the method and the arguments of the message (and, as the
    source, the text decoded).  A message is well formed when its kind is
    recognized; its namespace is empty or starts with a slash and holds no
    comma; the fields its kind does not carry are zero (ack id, method and,
    for Close, Ping, Pong and Empty, arguments); the ack id of an AckRequest
    or AckResponse is an [int]; the method of an Emit or AckRequest needs no
    JSON escape; the namespace of an Emit holds no double quote; and the
    arguments of an Open message with no namespace do not start with a
    slash.  The arguments are free otherwise. *)
Theorem C2_Decode_Encode_round_trip (m : Message) :
  well_formed m = true ->
  exists w,
    Encode m = (w, None)
    /\ Decode w = Return (Some (set_Source m w), None).
Proof.
  destruct m as [t ns ack method args src].
  unfold well_formed, set_Source.
  cbn [Type_ Namespace AckId Method Args Source].
  intros H. apply andb_prop in H as [Hns H].
  destruct (Z.eqb_spec t MessageTypeOpen) as [->|_].
  { apply andb_prop in H as [H Hargs]. apply andb_prop in H as [Hack Hm].
    apply Z.eqb_eq in Hack. apply streq_nil_r in Hm. subst ack method.
    exists (open ++ ns ++ separator ns ++ args).
    split; [apply Encode_wire; reflexivity|].
    rewrite Decode_open, getNamespace_encoded; [reflexivity | exact Hns |].
    intros ->. cbn [streq negb orb] in Hargs. now apply negb_true_iff in Hargs. }
  assert (Hterm : forall p k w,
             In (p, k) terminal_kinds ->
             getNamespace w = Return (ns, []) ->
             Decode (p ++ w)
             = Return (Some (mkMessage k ns 0 [] [] (p ++ w)), None)).
  { intros p k w Hin Hw. rewrite (Decode_terminal w p k Hin), Hw. reflexivity. }
  assert (Hzero : (ack =? 0) && streq method [] && streq args [] = true ->
                  ack = 0 /\ method = [] /\ args = []).
  { intros Hz. apply andb_prop in Hz as [Hz Ha]. apply andb_prop in Hz as [Hk Hm].
    apply Z.eqb_eq in Hk. apply streq_nil_r in Hm, Ha. auto. }
  destruct (Z.eqb_spec t MessageTypeClose) as [->|_].
  { cbn [orb] in H. destruct (Hzero H) as (-> & -> & ->).
    exists (CloseMessage ++ ns ++ separator ns ++ []).
    split; [apply Encode_wire; reflexivity|].
    apply Hterm; [left; reflexivity|].
    apply getNamespace_encoded; [exact Hns | reflexivity]. }
  destruct (Z.eqb_spec t MessageTypePing) as [->|_].
  { cbn [orb] in H. destruct (Hzero H) as (-> & -> & ->).
    exists (PingMessage ++ ns).
    split; [apply Encode_wire; reflexivity|].
    apply Hterm; [right; left; reflexivity|]. now apply getNamespace_only. }
  destruct (Z.eqb_spec t MessageTypePong) as [->|_].
  { cbn [orb] in H. destruct (Hzero H) as (-> & -> & ->).
    exists (PongMessage ++ ns).
    split; [apply Encode_wire; reflexivity|].
    apply Hterm; [right; right; left; reflexivity|]. now apply getNamespace_only. }
  destruct (Z.eqb_spec t MessageTypeEmpty) as [->|_].
  { cbn [orb] in H. destruct (Hzero H) as (-> & -> & ->).
    exists (emptyMessage ++ ns).
    split; [apply Encode_wire; reflexivity|].
    apply Hterm; [right; right; right; left; reflexivity|].
    now apply getNamespace_only. }
  cbn [orb] in H.
  destruct (Z.eqb_spec t MessageTypeEmit) as [->|_].
  { apply andb_prop in H as [H Hq]. apply andb_prop in H as [Hack Hm].
    apply Z.eqb_eq in Hack. subst ack.
    destruct (json_verbatim_spec method Hm) as [HM Hmq].
    exists (commonMessage ++ ns ++ separator ns ++ [lbracket]
              ++ quoted method ++ [comma_c] ++ args ++ [rbracket]).
    split.
    { apply Encode_wire. unfold wire_grammar.
      cbn [Type_ Namespace AckId Method Args Z.eqb MessageTypeEmit
           MessageTypeOpen MessageTypeClose MessageTypePing MessageTypePong
           MessageTypeEmpty].
      rewrite HM. reflexivity. }
    rewrite Decode_common.
    rewrite getNamespace_encoded by (auto; reflexivity). cbn [bind app].
    rewrite getAck_none. cbn [bind].
    replace (ns ++ separator ns ++ lbracket :: quoted method
                ++ comma_c :: args ++ [rbracket])
      with ((ns ++ separator ns ++ [lbracket]) ++ quote :: method ++ quote
              :: [] ++ comma_c :: args ++ [rbracket])
      by (unfold quoted; list_eq).
    rewrite getMethod_comma; [reflexivity | | exact Hmq | reflexivity | reflexivity].
    rewrite !no_byte_app, Hq. unfold separator.
    destruct (streq ns []); reflexivity. }
  destruct (Z.eqb_spec t MessageTypeAckRequest) as [->|_].
  { apply andb_prop in H as [Hack Hm].
    destruct (json_verbatim_spec method Hm) as [HM Hmq].
    exists (commonMessage ++ ns ++ separator ns ++ strconv.Itoa ack ++ [lbracket]
              ++ quoted method ++ [comma_c] ++ args ++ [rbracket]).
    split.
    { apply Encode_wire. unfold wire_grammar.
      cbn [Type_ Namespace AckId Method Args Z.eqb MessageTypeEmit
           MessageTypeOpen MessageTypeClose MessageTypePing MessageTypePong
           MessageTypeEmpty MessageTypeAckRequest].
      rewrite HM. reflexivity. }
    rewrite Decode_common.
    rewrite getNamespace_encoded by (auto; intros; apply Itoa_no_slash).
    cbn [bind app].
    rewrite getAck_Itoa by exact Hack. cbn [bind].
    replace (lbracket :: quoted method ++ comma_c :: args ++ [rbracket])
      with ([lbracket] ++ quote :: method ++ quote
              :: [] ++ comma_c :: args ++ [rbracket])
      by (unfold quoted; list_eq).
    rewrite getMethod_comma by (auto; reflexivity). reflexivity. }
  destruct (Z.eqb_spec t MessageTypeAckResponse) as [->|_]; [|discriminate].
  apply andb_prop in H as [Hack Hm]. apply streq_nil_r in Hm. subst method.
  exists (ackMessage ++ ns ++ separator ns ++ strconv.Itoa ack ++ [lbracket]
            ++ args ++ [rbracket]).
  split; [apply Encode_wire; reflexivity|].
  rewrite Decode_ack.
  rewrite getNamespace_encoded by (auto; intros; apply Itoa_no_slash).
  cbn [bind app].
  rewrite getAck_Itoa by exact Hack. cbn [bind].
  rewrite (slice_at _ [lbracket] args [rbracket])
    by (autorewrite with len; solve [reflexivity | lia]).
  reflexivity.
Qed.

Lemma C2_Decode_Encode_round_trip_witness :
  well_formed (mkMessage MessageTypeAckRequest (str "/chat") (-7)
                         (str "foo") (str "[1,2]") []) = true
  /\ exists w,
      Encode (mkMessage MessageTypeAckRequest (str "/chat") (-7)
                        (str "foo") (str "[1,2]") []) = (w, None)
      /\ Decode w
         = Return (Some (mkMessage MessageTypeAckRequest (str "/chat") (-7)
                                   (str "foo") (str "[1,2]") w), None).
Proof.
  split; [reflexivity|].
  apply (C2_Decode_Encode_round_trip
           (mkMessage MessageTypeAckRequest (str "/chat") (-7)
                      (str "foo") (str "[1,2]") [])).
  reflexivity.
Defined.

(* ================================================================= *)
(** * Further properties of the codec *)

(** ** Cutting a text at a byte *)

Lemma cut_at (c : ascii) (s : gostring) :
  no_byte c s = false ->
  exists a b, s = a ++ c :: b /\ no_byte c a = true.
Proof.
  intros H.
  assert (strings.IndexByte s c <> -1) as Hi.
  { intros Hi. apply IndexByte_none in Hi. congruence. }
  destruct (IndexByte_split _ _ Hi) as (a & b & -> & Ha & _). eauto.
Qed.

(** The first quote or comma of a text, if it has one. *)
Lemma cut_at_quote_or_comma (s : gostring) :
  (no_byte quote s = true /\ no_byte comma_c s = true)
  \/ (exists b c, s = b ++ quote :: c
                  /\ no_byte quote b = true /\ no_byte comma_c b = true)
  \/ (exists b c, s = b ++ comma_c :: c
                  /\ no_byte quote b = true /\ no_byte comma_c b = true).
Proof.
  induction s as [|x s IH]; [left; split; reflexivity|].
  destruct (Ascii.eqb_spec x quote) as [->|Hq].
  { right; left. exists [], s. repeat split. }
  destruct (Ascii.eqb_spec x comma_c) as [->|Hc].
  { right; right. exists [], s. repeat split. }
  assert (Hx : forall c, x <> c -> negb (Ascii.eqb x c) = true).
  { intros c Hn. destruct (Ascii.eqb_spec x c); [contradiction | reflexivity]. }
  destruct IH as [[H1 H2]|[(b & c & -> & H1 & H2)|(b & c & -> & H1 & H2)]].
  - left. rewrite !no_byte_cons, H1, H2, !Hx by assumption. split; reflexivity.
  - right; left. exists (x :: b), c.
    rewrite !no_byte_cons, H1, H2, !Hx by assumption. repeat split.
  - right; right. exists (x :: b), c.
    rewrite !no_byte_cons, H1, H2, !Hx by assumption. repeat split.
Qed.

Lemma last_byte (s : gostring) : s = [] \/ exists b x, s = b ++ [x].
Proof.
  destruct s as [|c s] using rev_ind; [now left | right; eauto].
Qed.

(** ** The shapes of [getMethod] *)

(** Every text has one of the shapes, and [getMethod] returns the result of
    the shape. *)
Lemma getMethod_shape (text : gostring) :
  exists r, getMethod text = Return r /\ method_shape text r.
Proof.
  destruct (no_byte quote text) eqn:Hq.
  { destruct (last_byte text) as [->|(b & x & ->)].
    - exists wrong_packet. split; [apply getMethod_nil | constructor].
    - exists ([], b, None). split; [now apply getMethod_no_quote | now constructor]. }
  destruct (cut_at _ _ Hq) as (a & s1 & -> & Ha).
  destruct (no_byte quote s1) eqn:Hq1.
  { exists wrong_packet.
    split; [now apply getMethod_one_quote | now constructor]. }
  destruct (cut_at _ _ Hq1) as (m & s & -> & Hm).
  destruct (cut_at_quote_or_comma s)
    as [[H1 H2]|[(b & c & -> & H1 & H2)|(b & c & -> & H1 & H2)]].
  - destruct (last_byte s) as [->|(b & x & ->)].
    + exists wrong_packet. split; [|now constructor].
      exact (proj1 (getMethod_nothing_after a m [] Ha Hm eq_refl eq_refl)).
    + exists (m, b, None).
      split; [now apply getMethod_no_comma | now constructor].
  - exists wrong_packet.
    split; [now apply getMethod_third_quote | now constructor].
  - destruct (last_byte c) as [->|(args & x & ->)].
    + exists wrong_packet. split; [|now constructor].
      exact (proj2 (getMethod_nothing_after a m b Ha Hm H1 H2)).
    + exists (m, args, None).
      split; [now apply getMethod_comma | now constructor].
Qed.

(** What a successful [getMethod] returns: a method with no quote in it,
    and as the rest a stretch of the text that ends right before its last
    byte. *)
Lemma getMethod_success (text m r : gostring) :
  getMethod text = Return (m, r, None) ->
  no_byte quote m = true
  /\ exists pre x, text = pre ++ r ++ [x]
       /\ (m = [] \/ exists a b, pre = a ++ quoted m ++ b).
Proof.
  intros H. destruct (getMethod_shape text) as (res & Hg & Hs).
  rewrite Hg in H. injection H as ->.
  inversion Hs; subst; try discriminate.
  - split; [reflexivity|]. exists [], x. split; [reflexivity | now left].
  - split; [assumption|]. exists (a ++ quoted m), x.
    split; [unfold quoted; list_eq|]. right. exists a, []. now rewrite app_nil_r.
  - split; [assumption|]. exists (a ++ quoted m ++ b ++ [comma_c]), x.
    split; [unfold quoted; list_eq|]. right. exists a, (b ++ [comma_c]).
    reflexivity.
Qed.

(** Text without a quote in front of a text that holds one changes
    nothing. *)
Lemma getMethod_prefix (p text : gostring) :
  no_byte quote p = true -> no_byte quote text = false ->
  getMethod (p ++ text) = getMethod text.
Proof.
  intros Hp Hq.
  destruct (cut_at _ _ Hq) as (a & s1 & -> & Ha).
  assert (Hpa : no_byte quote (p ++ a) = true)
    by (rewrite no_byte_app, Hp, Ha; reflexivity).
  rewrite app_assoc.
  destruct (no_byte quote s1) eqn:Hq1.
  { now rewrite !getMethod_one_quote. }
  destruct (cut_at _ _ Hq1) as (m & s & -> & Hm).
  destruct (cut_at_quote_or_comma s)
    as [[H1 H2]|[(b & c & -> & H1 & H2)|(b & c & -> & H1 & H2)]].
  - destruct (last_byte s) as [->|(b & x & ->)].
    + rewrite (proj1 (getMethod_nothing_after (p ++ a) m [] Hpa Hm eq_refl eq_refl)).
      now rewrite (proj1 (getMethod_nothing_after a m [] Ha Hm eq_refl eq_refl)).
    + now rewrite !getMethod_no_comma.
  - now rewrite !getMethod_third_quote.
  - destruct (last_byte c) as [->|(args & x & ->)].
    + rewrite (proj2 (getMethod_nothing_after (p ++ a) m b Hpa Hm H1 H2)).
      now rewrite (proj2 (getMethod_nothing_after a m b Ha Hm H1 H2)).
    + now rewrite !getMethod_comma.
Qed.

(** ** Kinds and prefixes *)

Lemma recognized_cases (k : Z) :
  recognized k = true ->
  k = MessageTypeOpen \/ k = MessageTypeClose \/ k = MessageTypePing
  \/ k = MessageTypePong \/ k = MessageTypeEmpty \/ k = MessageTypeEmit
  \/ k = MessageTypeAckRequest \/ k = MessageTypeAckResponse.
Proof.
  unfold recognized. cbn [existsb]. intros H.
  repeat (apply orb_prop in H as [H|H]; [apply Z.eqb_eq in H; tauto|]).
  discriminate.
Qed.

Lemma unrecognized_Encode (m : Message) :
  recognized (Type_ m) = false -> Encode m = ([], Some ErrorWrongMessageType).
Proof.
  unfold recognized. cbn [existsb]. intros H.
  repeat (apply orb_false_elim in H as [?E H]).
  unfold Encode, typeToText.
  repeat match goal with
         | E : (Type_ m =? _) = false |- _ => rewrite E; clear E
         end.
  reflexivity.
Qed.

(** For a recognized kind the grammar gives a text: the prefix of the
    kind, the namespace, and what the kind carries. *)
Lemma recognized_wire (m : Message) :
  recognized (Type_ m) = true ->
  exists w p tail,
    wire_grammar m = Some w /\ typeToText (Type_ m) = (p, None)
    /\ In p prefixes /\ w = p ++ Namespace m ++ tail.
Proof.
  intros H. destruct m as [t ns ack method args src].
  cbn [Type_] in H. unfold wire_grammar. cbn [Type_ Namespace AckId Method Args].
  destruct (recognized_cases t H) as [->|[->|[->|[->|[->|[->|[->| ->]]]]]]];
    cbn [Z.eqb MessageTypeOpen MessageTypeClose MessageTypePing
         MessageTypePong MessageTypeEmpty MessageTypeEmit
         MessageTypeAckRequest MessageTypeAckResponse Pos.eqb];
    do 3 eexists;
    (split; [reflexivity|]; split; [reflexivity|];
     split; [unfold prefixes; simpl; tauto|]);
    first [reflexivity | symmetry; apply (f_equal (app _)), app_nil_r].
Qed.

Lemma Decode_wrong_type (data : gostring) :
  Decode data = Return (None, Some ErrorWrongMessageType) ->
  classified data = false.
Proof.
  intros H.
  destruct (Decode_outcomes data)
    as [(m & E)|[(e & E & [[_ Hc]|[_ He]])|(t & ns & rest & ack & _ & _ & _ & E)]];
    rewrite E in H; try discriminate; [exact Hc|].
  injection H as ->. destruct He as [He|(num & k & He)]; discriminate.
Qed.



(** X2.  The prefix that [typeToText] gives for a kind, in front of any
    text, is read back by [getMessageType] as that kind, with the text as
    the rest; the one exception is Emit, whose prefix is read as
    AckRequest. *)
Theorem X2_getMessageType_typeToText (k : Z) (p t : gostring) :
  typeToText k = (p, None) ->
  getMessageType (p ++ t) = Return (kind_read k, t, None).
Proof.
  unfold typeToText, kind_read.
  destruct (Z.eqb_spec k MessageTypeOpen) as [->|_];
    [intros [= <-]; apply getMessageType_cons|].
  destruct (Z.eqb_spec k MessageTypeClose) as [->|_];
    [intros [= <-]; apply getMessageType_cons|].
  destruct (Z.eqb_spec k MessageTypePing) as [->|_];
    [intros [= <-]; apply getMessageType_cons|].
  destruct (Z.eqb_spec k MessageTypePong) as [->|_];
    [intros [= <-]; apply getMessageType_cons|].
  destruct (Z.eqb_spec k MessageTypeEmpty) as [->|_];
    [intros [= <-]; apply getMessageType_cons|].
  destruct (Z.eqb_spec k MessageTypeEmit) as [->|_];
    [intros [= <-]; apply getMessageType_cons|].
  destruct (Z.eqb_spec k MessageTypeAckRequest) as [->|_];
    [intros [= <-]; apply getMessageType_cons|].
  destruct (Z.eqb_spec k MessageTypeAckResponse) as [->|_];
    [intros [= <-]; apply getMessageType_cons | discriminate].
Qed.

Lemma X2_getMessageType_typeToText_witness :
  getMessageType (str "42/chat,7[]")
  = Return (MessageTypeAckRequest, str "/chat,7[]", None).
Proof.
  exact (X2_getMessageType_typeToText MessageTypeEmit (str "42") (str "/chat,7[]")
           eq_refl).
Defined.

(** X3.  [getMessageType] never panics.  When it succeeds it has removed
    from the text exactly the prefix that [typeToText] gives for the kind
    it returns, and that kind is never Emit.  When it fails the error is
    [ErrorWrongMessageType] and the kind returned is 0. *)
Theorem X3_getMessageType_inverse (data : gostring) :
  exists k r e,
    getMessageType data = Return (k, r, e)
    /\ match e with
       | None =>
         exists p, typeToText k = (p, None) /\ data = p ++ r
                   /\ k <> MessageTypeEmit
       | Some err => err = ErrorWrongMessageType /\ k = 0
       end.
Proof.
  destruct data as [|c t].
  { do 3 eexists. split; [reflexivity|]. split; reflexivity. }
  rewrite getMessageType_cons.
  destruct (Ascii.eqb_spec c "0") as [->|_];
    [do 3 eexists; split; [reflexivity|]; exists open; repeat split; discriminate|].
  destruct (Ascii.eqb_spec c "1") as [->|_];
    [do 3 eexists; split; [reflexivity|];
     exists CloseMessage; repeat split; discriminate|].
  destruct (Ascii.eqb_spec c "2") as [->|_];
    [do 3 eexists; split; [reflexivity|];
     exists PingMessage; repeat split; discriminate|].
  destruct (Ascii.eqb_spec c "3") as [->|_];
    [do 3 eexists; split; [reflexivity|];
     exists PongMessage; repeat split; discriminate|].
  destruct (Ascii.eqb_spec c "4") as [->|_];
    [|do 3 eexists; split; [reflexivity|]; split; reflexivity].
  destruct t as [|d t];
    [do 3 eexists; split; [reflexivity|]; split; reflexivity|].
  destruct (Ascii.eqb_spec d "0") as [->|_];
    [do 3 eexists; split; [reflexivity|];
     exists emptyMessage; repeat split; discriminate|].
  destruct (Ascii.eqb_spec d "2") as [->|_];
    [do 3 eexists; split; [reflexivity|];
     exists commonMessage; repeat split; discriminate|].
  destruct (Ascii.eqb_spec d "3") as [->|_];
    [do 3 eexists; split; [reflexivity|];
     exists ackMessage; repeat split; discriminate|].
  do 3 eexists; split; [reflexivity|]; split; reflexivity.
Qed.

(** ** The helpers of [Decode] *)

(** X4.  [getNamespace] never panics.  The namespace it returns is empty
    or starts with a slash, and holds no comma; the text is the namespace
    followed by the rest, with at most one comma between them left out; and
    when the namespace is empty the rest is the whole text. *)
Theorem X4_getNamespace_splits (text : gostring) :
  exists ns r,
    getNamespace text = Return (ns, r)
    /\ namespace_ok ns = true
    /\ (text = ns ++ r \/ text = ns ++ comma_c :: r)
    /\ (ns = [] -> r = text).
Proof.
  destruct (getNamespace_cases text)
    as [[Hp H]|[(Hp & Hc & H)|(ns & r & -> & Hp & Hc & H)]].
  - exists [], text. repeat split; auto.
  - exists text, []. split; [exact H|]. split.
    + unfold namespace_ok. rewrite Hp, Hc. apply orb_true_r.
    + split; [left; now rewrite app_nil_r|].
      intros ->. reflexivity.
  - exists ns, r. split; [exact H|]. split.
    + unfold namespace_ok. rewrite Hp, Hc. apply orb_true_r.
    + split; [now right|]. intros ->. discriminate.
Qed.

Lemma X4_getNamespace_splits_witness :
  getNamespace (str "/chat,x") = Return (str "/chat", str "x")
  /\ namespace_ok (str "/chat") = true
  /\ (str "/chat" = [] -> str "x" = str "/chat,x").
Proof.
  destruct (X4_getNamespace_splits (str "/chat,x"))
    as (ns & r & H & Hok & _ & Hnil).
  assert (E : Return (ns, r) = Return (str "/chat", str "x"))
    by (rewrite <- H; reflexivity).
  injection E as -> ->.
  split; [exact H|]. split; [exact Hok | exact Hnil].
Defined.



(** X6.  Every text has one of the eight shapes of [method_shape], and
    [getMethod] returns what the shape says: it never panics, it fails with
    [ErrorWrongPacket] on the empty text, on one quote only, on a third
    quote before a comma that follows the second, and when nothing follows
    the second quote or the comma after it; otherwise it succeeds. *)
Theorem X6_getMethod_by_shape (text : gostring) :
  exists r, getMethod text = Return r /\ method_shape text r.
Proof. apply getMethod_shape. Qed.

(** X7.  When [getMethod] succeeds, the method holds no double quote and
    the rest is a stretch of the text that ends right before the last
    byte of the text; the method is empty, or it stands between two
    quotes in the text before the rest.  When it fails, the error is
    [ErrorWrongPacket] and both strings are empty. *)
Theorem X7_getMethod_results (text m r : gostring) (e : option error) :
  getMethod text = Return (m, r, e) ->
  match e with
  | None =>
    no_byte quote m = true
    /\ exists pre x, text = pre ++ r ++ [x]
         /\ (m = [] \/ exists a b, pre = a ++ quoted m ++ b)
  | Some err => err = ErrorWrongPacket /\ m = [] /\ r = []
  end.
Proof.
  intros H. destruct e as [err|]; [|now apply getMethod_success].
  destruct (getMethod_shape text) as (res & Hg & Hs).
  rewrite Hg in H. injection H as ->.
  inversion Hs; subst; repeat split; reflexivity.
Qed.

Lemma X7_getMethod_results_witness :
  no_byte quote (str "foo") = true
  /\ exists pre x,
      str "[" ++ quoted (str "foo") ++ str ",[1,2]]" = pre ++ str "[1,2]" ++ [x]
      /\ (str "foo" = [] \/ exists a b, pre = a ++ quoted (str "foo") ++ b).
Proof.
  exact (X7_getMethod_results (str "[" ++ quoted (str "foo") ++ str ",[1,2]]")
           (str "foo") (str "[1,2]") None eq_refl).
Defined.

(** X8.  Text without a double quote, put in front of a text that holds
    one, does not change what [getMethod] returns. *)
Theorem X8_getMethod_ignores_prefix (p text : gostring) :
  no_byte quote p = true -> no_byte quote text = false ->
  getMethod (p ++ text) = getMethod text.
Proof. apply getMethod_prefix. Qed.

Lemma X8_getMethod_ignores_prefix_witness :
  getMethod (str "/chat," ++ str "[" ++ quoted (str "foo") ++ str ",1]")
  = getMethod (str "[" ++ quoted (str "foo") ++ str ",1]").
Proof.
  apply (X8_getMethod_ignores_prefix (str "/chat,")
           (str "[" ++ quoted (str "foo") ++ str ",1]")); reflexivity.
Defined.

(** ** [Decode] *)

Lemma getNamespace_ok (t ns r : gostring) :
  getNamespace t = Return (ns, r) -> namespace_ok ns = true.
Proof.
  intros H.
  destruct (getNamespace_cases t)
    as [[_ E]|[(Hp & Hc & E)|(ns' & r' & _ & Hp & Hc & E)]];
    rewrite E in H; injection H as <- <-; unfold namespace_ok;
    [reflexivity | |]; rewrite Hp, Hc; apply orb_true_r.
Qed.

(** X9.  On the path that reads a text of the class of [42] as an Emit,
    the namespace is still in the text handed to [getMethod].  For a
    namespace that holds no double quote this changes nothing: a text with
    such a namespace decodes to what the text without it decodes to, with
    the namespace (and the source) set. *)
Theorem X9_Decode_namespace_in_body (ns body : gostring) :
  namespace_ok ns = true -> ns <> [] -> no_byte quote ns = true ->
  has_prefix [slash] body = false -> no_byte quote body = false ->
  Decode (commonMessage ++ ns ++ comma_c :: body)
  = with_namespace ns (commonMessage ++ ns ++ comma_c :: body)
      (Decode (commonMessage ++ body)).
Proof.
  intros Hok Hne Hq Hs Hb.
  destruct (namespace_ok_cases ns Hok) as [->|(_ & Hp & Hc)]; [contradiction|].
  rewrite !Decode_common.
  rewrite (getNamespace_comma ns body Hp Hc), (getNamespace_none body Hs).
  cbn [bind].
  destruct (getAck_cases body) as [(e & -> & _)|(p & r & ack & _ & _ & _ & ->)];
    cbn [bind].
  - replace (ns ++ comma_c :: body) with ((ns ++ [comma_c]) ++ body) by list_eq.
    rewrite getMethod_prefix
      by (auto; rewrite no_byte_app, Hq; reflexivity).
    destruct (getMethod body) as [[[m a] [e'|]]|]; reflexivity.
  - destruct (getMethod (lbracket :: r)) as [[[m a] [e'|]]|]; reflexivity.
Qed.

Lemma X9_Decode_namespace_in_body_witness :
  Decode (str "42/chat,[" ++ quoted (str "foo") ++ str ",1]")
  = with_namespace (str "/chat")
      (str "42/chat,[" ++ quoted (str "foo") ++ str ",1]")
      (Decode (str "42[" ++ quoted (str "foo") ++ str ",1]")).
Proof.
  apply (X9_Decode_namespace_in_body (str "/chat")
           (str "[" ++ quoted (str "foo") ++ str ",1]"));
    solve [reflexivity | discriminate].
Defined.

(** X10.  Every message that [Decode] returns has the text decoded as its
    source; a recognized kind whose prefix starts the text; a namespace
    that is empty or starts with a slash and holds no comma; an ack id
    that is an [int]; a method with no double quote in it; and zero in the
    fields its kind does not carry: the ack id outside AckRequest and
    AckResponse, the method outside Emit and AckRequest, the arguments for
    Close, Ping, Pong and Empty. *)
Theorem X10_Decode_message_invariants (data : gostring) (m : Message) :
  Decode data = Return (Some m, None) ->
  Source m = data
  /\ recognized (Type_ m) = true
  /\ (exists p t, typeToText (Type_ m) = (p, None) /\ data = p ++ t)
  /\ namespace_ok (Namespace m) = true
  /\ is_int (AckId m) = true
  /\ no_byte quote (Method m) = true
  /\ (carries_ack (Type_ m) = false -> AckId m = 0)
  /\ (carries_method (Type_ m) = false -> Method m = [])
  /\ (decodes_args (Type_ m) = false -> Args m = []).
Proof.
  intros H.
  destruct (classified data) eqn:Hc;
    [|rewrite (Decode_unclassified data Hc) in H; discriminate].
  destruct (classified_split _ Hc) as (p & t & Hp & ->).
  destruct (getNamespace_total t) as (ns & rest & Hns).
  pose proof (getNamespace_ok _ _ _ Hns) as Hok.
  assert (Hterm : forall k,
             In (p, k) terminal_kinds -> recognized k = true ->
             typeToText k = (p, None) -> carries_ack k = false ->
             carries_method k = false ->
             Source m = p ++ t
             /\ recognized (Type_ m) = true
             /\ (exists p' t', typeToText (Type_ m) = (p', None)
                               /\ p ++ t = p' ++ t')
             /\ namespace_ok (Namespace m) = true
             /\ is_int (AckId m) = true
             /\ no_byte quote (Method m) = true
             /\ (carries_ack (Type_ m) = false -> AckId m = 0)
             /\ (carries_method (Type_ m) = false -> Method m = [])
             /\ (decodes_args (Type_ m) = false -> Args m = [])).
  { intros k Hk Hr Ht Ha Hm.
    rewrite (Decode_terminal t p k Hk), Hns in H. cbn [bind] in H.
    injection H as <-. cbn [Source Type_ Namespace AckId Method Args].
    repeat split; eauto; try discriminate;
      try (exists p, t; split; [exact Ht | reflexivity]). }
  simpl in Hp.
  destruct Hp as [<-|[<-|[<-|[<-|[<-|[<-|[<-|[]]]]]]]].
  - rewrite Decode_open, Hns in H. cbn [bind] in H. injection H as <-.
    cbn [Source Type_ Namespace AckId Method Args].
    repeat split; eauto; try discriminate;
      try (eexists _, t; split; reflexivity).
  - apply (Hterm MessageTypeClose); try reflexivity. simpl; auto.
  - apply (Hterm MessageTypePing); try reflexivity. simpl; auto.
  - apply (Hterm MessageTypePong); try reflexivity. simpl; auto 6.
  - apply (Hterm MessageTypeEmpty); try reflexivity. simpl; auto 6.
  - rewrite Decode_common, Hns in H. cbn [bind] in H.
    destruct (getAck_cases rest)
      as [(e & He & _)|(q & r & ack & _ & _ & Ha & He)];
      rewrite He in H; cbn [bind] in H.
    + destruct (getMethod t) as [[[method args] [e'|]]|] eqn:Hm;
        cbn [bind] in H; try discriminate.
      injection H as <-. cbn [Source Type_ Namespace AckId Method Args].
      destruct (getMethod_success _ _ _ Hm) as [Hq _].
      repeat split; eauto; try discriminate;
      try (eexists _, t; split; reflexivity).
    + destruct (getMethod (lbracket :: r)) as [[[method args] [e'|]]|] eqn:Hm;
        cbn [bind] in H; try discriminate.
      injection H as <-. cbn [Source Type_ Namespace AckId Method Args].
      destruct (getMethod_success _ _ _ Hm) as [Hq _].
      destruct (Atoi_accepts _ _ Ha) as (sg & ds & _ & _ & _ & _ & Hi).
      repeat split; eauto; try discriminate;
      try (eexists _, t; split; reflexivity).
  - rewrite Decode_ack, Hns in H. cbn [bind] in H.
    destruct (getAck_cases rest)
      as [(e & He & _)|(q & r & ack & _ & _ & Ha & He)];
      rewrite He in H; cbn [bind] in H; [discriminate|].
    destruct (slice (lbracket :: r) 1 (len (lbracket :: r) - 1)) as [a|];
      cbn [bind] in H; [|discriminate].
    injection H as <-. cbn [Source Type_ Namespace AckId Method Args].
    destruct (Atoi_accepts _ _ Ha) as (sg & ds & _ & _ & _ & _ & Hi).
    repeat split; eauto; try discriminate;
      try (eexists _, t; split; reflexivity).
Qed.

Lemma X10_Decode_message_invariants_witness :
  Source (mkMessage MessageTypeEmit (str "/chat") 0 (str "foo") (str "1")
                    (str "42/chat,[" ++ quoted (str "foo") ++ str ",1]"))
  = str "42/chat,[" ++ quoted (str "foo") ++ str ",1]"
  /\ namespace_ok (str "/chat") = true.
Proof.
  destruct (X10_Decode_message_invariants
              (str "42/chat,[" ++ quoted (str "foo") ++ str ",1]")
              (mkMessage MessageTypeEmit (str "/chat") 0 (str "foo") (str "1")
                         (str "42/chat,[" ++ quoted (str "foo") ++ str ",1]"))
              eq_refl) as (H1 & _ & _ & H2 & _).
  split; [exact H1 | exact H2].
Defined.

(** X11.  [Decode] never fails on a text that starts with the prefix of
    Open: the message is an Open message whose arguments are what follows
    the namespace, taken as they are; the text after the prefix is the
    namespace followed by the arguments, with at most one comma between
    them left out. *)
Theorem X11_Decode_open_total (t : gostring) :
  exists ns args,
    Decode (open ++ t)
    = Return (Some (mkMessage MessageTypeOpen ns 0 [] args (open ++ t)), None)
    /\ (t = ns ++ args \/ t = ns ++ comma_c :: args).
Proof.
  rewrite Decode_open.
  destruct (getNamespace_cases t)
    as [[_ E]|[(_ & _ & E)|(ns & r & Ht & _ & _ & E)]]; rewrite E; cbn [bind].
  - exists [], t. split; [reflexivity | now left].
  - exists t, []. split; [reflexivity | left; now rewrite app_nil_r].
  - exists ns, r. split; [reflexivity | now right].
Qed.

(** X12.  [Decode] panics only on a text of the class of [43] in which
    the ack id is followed by an opening bracket and nothing else, and the
    panic is that of the slice with bounds 1 and 0.  It does panic on
    every such text written with a well-formed namespace and the decimal
    form of an [int]. *)
Theorem X12_Decode_panics :
  (forall data p,
      Decode data = Panic p ->
      p = SliceBoundsOutOfRange 1 0 1
      /\ exists t ns rest ack,
          data = ackMessage ++ t /\ getNamespace t = Return (ns, rest)
          /\ getAck rest = Return (ack, [lbracket], None))
  /\ (forall ns i,
         namespace_ok ns = true -> is_int i = true ->
         Decode (ackMessage ++ ns ++ separator ns ++ strconv.Itoa i ++ [lbracket])
         = Panic (SliceBoundsOutOfRange 1 0 1)).
Proof.
  split.
  - intros data p H.
    destruct (Decode_outcomes data)
      as [(m & E)|[(e & E & _)|(t & ns & rest & ack & Hd & Hn & Ha & E)]];
      rewrite E in H; try discriminate.
    injection H as <-. split; [reflexivity|]. eauto 8.
  - intros ns i Hns Hi.
    rewrite Decode_ack.
    rewrite getNamespace_encoded by (auto; intros; apply Itoa_no_slash).
    cbn [bind app]. rewrite getAck_Itoa by exact Hi. reflexivity.
Qed.

Lemma X12_Decode_panics_witness :
  Decode (str "43/chat,-12[") = Panic (SliceBoundsOutOfRange 1 0 1)
  /\ exists t ns rest ack,
      str "43/chat,-12[" = ackMessage ++ t
      /\ getNamespace t = Return (ns, rest)
      /\ getAck rest = Return (ack, [lbracket], None).
Proof.
  assert (H : Decode (str "43/chat,-12[") = Panic (SliceBoundsOutOfRange 1 0 1)).
  { apply (proj2 X12_Decode_panics (str "/chat") (-12)); reflexivity. }
  split; [exact H|].
  exact (proj2 (proj1 X12_Decode_panics _ _ H)).
Defined.

(** X15.  For Open, Close, Ping, Pong and Empty, a namespace followed by a
    comma and nothing else is read as the namespace alone is: both texts
    decode to the message of the kind with that namespace and no
    arguments. *)
Theorem X15_Decode_trailing_comma (p : gostring) (k : Z) (ns : gostring) :
  In (p, k) ((open, MessageTypeOpen) :: terminal_kinds) ->
  namespace_ok ns = true -> ns <> [] ->
  Decode (p ++ ns ++ [comma_c])
  = Return (Some (mkMessage k ns 0 [] [] (p ++ ns ++ [comma_c])), None)
  /\ Decode (p ++ ns)
     = Return (Some (mkMessage k ns 0 [] [] (p ++ ns)), None).
Proof.
  intros Hin Hok Hne.
  destruct (namespace_ok_cases ns Hok) as [->|(_ & Hp & Hc)]; [contradiction|].
  pose proof (getNamespace_comma ns [] Hp Hc) as H1.
  pose proof (getNamespace_alone ns Hp Hc) as H2.
  destruct Hin as [[= <- <-]|Hin].
  - rewrite !Decode_open, H1, H2. split; reflexivity.
  - rewrite !(Decode_terminal _ p k Hin), H1, H2. split; reflexivity.
Qed.

Lemma X15_Decode_trailing_comma_witness :
  Decode (str "1/chat,")
  = Return (Some (mkMessage MessageTypeClose (str "/chat") 0 [] []
                            (str "1/chat,")), None)
  /\ Decode (str "1/chat")
     = Return (Some (mkMessage MessageTypeClose (str "/chat") 0 [] []
                               (str "1/chat")), None).
Proof.
  apply (X15_Decode_trailing_comma CloseMessage MessageTypeClose (str "/chat")).
  - right; left; reflexivity.
  - reflexivity.
  - discriminate.
Defined.

(** ** [Encode] *)

(** X13.  [Encode] succeeds exactly for the messages of a recognized kind.
    What it then writes starts with the prefix of the kind followed by the
    namespace, and [Decode] never answers [ErrorWrongMessageType] to
    it. *)
Theorem X13_Encode_succeeds_iff_recognized (m : Message) :
  (snd (Encode m) = None <-> recognized (Type_ m) = true)
  /\ (recognized (Type_ m) = true ->
      exists w p tail,
        Encode m = (w, None) /\ typeToText (Type_ m) = (p, None)
        /\ w = p ++ Namespace m ++ tail
        /\ Decode w <> Return (None, Some ErrorWrongMessageType)).
Proof.
  assert (H : recognized (Type_ m) = true ->
              exists w p tail,
                Encode m = (w, None) /\ typeToText (Type_ m) = (p, None)
                /\ w = p ++ Namespace m ++ tail
                /\ Decode w <> Return (None, Some ErrorWrongMessageType)).
  { intros Hr. destruct (recognized_wire m Hr) as (w & p & tail & Hw & Ht & Hp & ->).
    exists (p ++ Namespace m ++ tail), p, tail.
    split; [now apply Encode_wire|]. split; [exact Ht|]. split; [reflexivity|].
    intros Hd. apply Decode_wrong_type in Hd.
    rewrite classified_prefix in Hd by exact Hp. discriminate. }
  split; [|exact H]. split.
  - intros He. destruct (recognized (Type_ m)) eqn:Hr; [reflexivity|].
    rewrite (unrecognized_Encode m Hr) in He. discriminate.
  - intros Hr. destruct (H Hr) as (w & _ & _ & -> & _). reflexivity.
Qed.

Lemma X13_Encode_succeeds_iff_recognized_witness :
  snd (Encode (mkMessage MessageTypeEmit (str "/chat") 0 (str "a<b") (str "1") []))
  = None
  /\ exists w p tail,
      Encode (mkMessage MessageTypeEmit (str "/chat") 0 (str "a<b") (str "1") [])
      = (w, None)
      /\ typeToText MessageTypeEmit = (p, None)
      /\ w = p ++ str "/chat" ++ tail
      /\ Decode w <> Return (None, Some ErrorWrongMessageType).
Proof.
  split.
  - apply (proj2 (proj1 (X13_Encode_succeeds_iff_recognized
             (mkMessage MessageTypeEmit (str "/chat") 0 (str "a<b") (str "1") [])))).
    reflexivity.
  - apply (proj2 (X13_Encode_succeeds_iff_recognized
             (mkMessage MessageTypeEmit (str "/chat") 0 (str "a<b") (str "1") []))).
    reflexivity.
Defined.

(** X14.  [Encode] writes only the fields that the kind carries: two
    messages of the same kind and namespace that agree on the ack id when
    the kind is AckRequest or AckResponse, on the method when it is Emit or
    AckRequest, and on the arguments when it is none of Ping, Pong and
    Empty, are encoded alike.  The source is never written. *)
Theorem X14_Encode_ignores_other_fields (m m' : Message) :
  Type_ m = Type_ m' -> Namespace m = Namespace m' ->
  (carries_ack (Type_ m) = true -> AckId m = AckId m') ->
  (carries_method (Type_ m) = true -> Method m = Method m') ->
  (encodes_args (Type_ m) = true -> Args m = Args m') ->
  Encode m = Encode m'.
Proof.
  destruct m as [t ns ack method args src].
  destruct m' as [t' ns' ack' method' args' src'].
  cbn [Type_ Namespace AckId Method Args]. intros <- <- Hack Hm Ha.
  destruct (recognized t) eqn:Hr.
  2:{ rewrite !unrecognized_Encode by exact Hr. reflexivity. }
  destruct (recognized_cases t Hr) as [->|[->|[->|[->|[->|[->|[->| ->]]]]]]];
    cbv in Hack, Hm, Ha;
    repeat match goal with
           | H : true = true -> _ |- _ => specialize (H eq_refl)
           end;
    subst;
    (etransitivity;
     [apply Encode_wire; reflexivity | symmetry; apply Encode_wire; reflexivity]).
Qed.

Lemma X14_Encode_ignores_other_fields_witness :
  Encode (mkMessage MessageTypePing (str "/chat") 7 (str "foo") (str "[1]") (str "x"))
  = Encode (mkMessage MessageTypePing (str "/chat") 0 [] [] []).
Proof.
  apply (X14_Encode_ignores_other_fields
           (mkMessage MessageTypePing (str "/chat") 7 (str "foo") (str "[1]") (str "x"))
           (mkMessage MessageTypePing (str "/chat") 0 [] [] []));
    solve [reflexivity | discriminate].
Defined.

(** X16.  The whole of [Decode] on a text of the class of [43], by what
    follows the namespace: with no opening bracket the error is
    [ErrorWrongPacket]; with one, the text before the first bracket goes
    to [Atoi], whose error is returned as it is; when [Atoi] accepts it,
    the arguments are what follows the bracket less the last byte, which
    is removed whatever it is; and [Decode] panics when nothing follows
    the bracket. *)
Theorem X16_Decode_ack_response_table (t ns rest : gostring) :
  getNamespace t = Return (ns, rest) ->
  (no_byte lbracket rest = true ->
   Decode (ackMessage ++ t) = Return (None, Some ErrorWrongPacket))
  /\ (forall p r,
         rest = p ++ lbracket :: r -> no_byte lbracket p = true ->
         (forall v e, strconv.Atoi p = (v, Some e) ->
                      Decode (ackMessage ++ t) = Return (None, Some e))
         /\ (forall ack, strconv.Atoi p = (ack, None) ->
               (r = [] ->
                Decode (ackMessage ++ t) = Panic (SliceBoundsOutOfRange 1 0 1))
               /\ (forall args x, r = args ++ [x] ->
                     Decode (ackMessage ++ t)
                     = Return (Some (mkMessage MessageTypeAckResponse ns ack []
                                               args (ackMessage ++ t)), None)))).
Proof.
  intros Hns. rewrite Decode_ack, Hns. cbn [bind]. split.
  - intros Hb. now rewrite getAck_no_bracket.
  - intros p r -> Hp. rewrite (getAck_bracket p r Hp). split.
    + intros v e ->. reflexivity.
    + intros ack ->. cbn [bind]. split.
      * intros ->. reflexivity.
      * intros args x ->.
        rewrite (slice_at _ [lbracket] args [x])
          by (autorewrite with len; solve [reflexivity | lia]).
        reflexivity.
Qed.

Lemma X16_Decode_ack_response_table_witness :
  Decode (str "43/a,") = Return (None, Some ErrorWrongPacket)
  /\ Decode (str "43/a,x[1]")
     = Return (None, Some (NumError strconv.fnAtoi (str "x") ErrSyntax))
  /\ Decode (str "43/a,+7[1}")
     = Return (Some (mkMessage MessageTypeAckResponse (str "/a") 7 [] (str "1")
                               (str "43/a,+7[1}")), None).
Proof.
  refine (conj _ (conj _ _)).
  - apply (proj1 (X16_Decode_ack_response_table (str "/a,") (str "/a") []
                    eq_refl)).
    reflexivity.
  - apply (proj1 (proj2 (X16_Decode_ack_response_table (str "/a,x[1]") (str "/a")
                           (str "x[1]") eq_refl)
                   (str "x") (str "1]") eq_refl eq_refl) 0).
    reflexivity.
  - apply (proj2 (proj2 (proj2 (X16_Decode_ack_response_table
                                  (str "/a,+7[1}") (str "/a") (str "+7[1}")
                                  eq_refl)
                          (str "+7") (str "1}") eq_refl eq_refl) 7 eq_refl)
             (str "1") "}"%char).
    reflexivity.
Defined.
